(** * A model of log-collector/app.py

    The Flask service [/collect] receives JSON log events, normalises a few
    fields, writes one row into the Postgres [logs] table
    ([INSERT ... ON CONFLICT (event_id) DO NOTHING]), increments the
    Prometheus counter [logs_total{level,client,type}] and forwards the
    event to a per-category persistor and to the Splunk HTTP event
    collector.

    Modelling choices:
    - JSON values as decoded by [request.get_json()]: numbers are JSON
      integers ([Z]); Python strings are Rocq (ASCII) strings.
    - the handler runs in a state and exception monad [M]: the state holds
      the database, the in-process counter and the trace of the observable
      side effects (database commits, counter increments, HTTP posts, log
      lines); a Python exception is [Err msg].
    - everything the outside world decides for one request (the clock,
      whether Postgres is reachable, the answers of the two HTTP services)
      is a record [Env] given to the handler.
    - library behaviour the repository does not contain is a section
      variable: [datetime.fromisoformat] on strings ([parse_iso]), the
      psycopg2 adaptation of a JSON value to a TEXT column value ([adapt])
      and Prometheus' [generate_latest] ([generate_latest]). *)

From Stdlib Require Import ZArith Lia.
From stdpp Require Import base gmap strings list sorting.

Set Warnings "-register-all".
Open Scope string_scope.

(* ------------------------------------------------------------------ *)
(** ** Python values coming from the JSON body *)

Inductive json : Type :=
| JNull : json                          (* None *)
| JBool : bool -> json
| JNum : Z -> json
| JStr : string -> json
| JArr : list json -> json
| JObj : list (string * json) -> json.

(** Python truthiness ([if not x], [x or y]). *)
Definition truthy (j : json) : bool :=
  match j with
  | JNull => false
  | JBool b => b
  | JNum z => negb (Z.eqb z 0)
  | JStr s => negb (String.eqb s "")
  | JArr l => negb (length l =? 0)%nat
  | JObj l => negb (length l =? 0)%nat
  end.

(** Python exceptions and results. *)
Inductive res (A : Type) : Type :=
| Ok : A -> res A
| Err : string -> res A.
Arguments Ok {A} _.
Arguments Err {A} _.

(** [dict.get] on a decoded JSON object: the last binding of a duplicated
    key wins (json.loads); anything else than a dict has no [get]. *)
Fixpoint assoc_last (l : list (string * json)) (k : string) : option json :=
  match l with
  | [] => None
  | (k', v) :: l' =>
      match assoc_last l' k with
      | Some w => Some w
      | None => if String.eqb k k' then Some v else None
      end
  end.

Definition py_dict_get (l : list (string * json)) (k : string) (default : json) : json :=
  match assoc_last l k with Some v => v | None => default end.

Definition dict_get (ev : json) (k : string) (default : json) : res json :=
  match ev with
  | JObj l => Ok (py_dict_get l k default)
  | _ => Err "AttributeError: object has no attribute 'get'"
  end.

(* ------------------------------------------------------------------ *)
(** ** String helpers: [str.strip], [str.upper], [str(int)] *)

(** [str.isspace] on ASCII: \t \n \x0b \x0c \r, \x1c-\x1f and space. *)
Definition py_isspace (c : Ascii.ascii) : bool :=
  let n := Ascii.nat_of_ascii c in
  (((9 <=? n) && (n <=? 13)) || ((28 <=? n) && (n <=? 32)))%nat.

Fixpoint lstrip (s : string) : string :=
  match s with
  | EmptyString => EmptyString
  | String c s' => if py_isspace c then lstrip s' else s
  end.

Fixpoint rev_str (s : string) (acc : string) : string :=
  match s with
  | EmptyString => acc
  | String c s' => rev_str s' (String c acc)
  end.

Definition py_strip (s : string) : string :=
  rev_str (lstrip (rev_str (lstrip s) EmptyString)) EmptyString.

Definition ascii_upper (c : Ascii.ascii) : Ascii.ascii :=
  let n := Ascii.nat_of_ascii c in
  if ((97 <=? n) && (n <=? 122))%nat then Ascii.ascii_of_nat (n - 32) else c.

Fixpoint py_upper (s : string) : string :=
  match s with
  | EmptyString => EmptyString
  | String c s' => String (ascii_upper c) (py_upper s')
  end.

Definition digit (d : Z) : Ascii.ascii := Ascii.ascii_of_nat (48 + Z.to_nat d).

Fixpoint pos_digits (fuel : nat) (n : Z) (acc : string) : string :=
  match fuel with
  | O => acc
  | S f =>
      let acc' := String (digit (n mod 10)) acc in
      if (n <? 10)%Z then acc' else pos_digits f (n / 10) acc'
  end.

(** [str(z)] for a Python int. *)
Definition z_to_dec (z : Z) : string :=
  let ds := pos_digits (S (Z.to_nat (Z.log2 (Z.abs z)))) (Z.abs z) EmptyString in
  if (z <? 0)%Z then String (Ascii.ascii_of_nat 45) ds else ds.

(* ------------------------------------------------------------------ *)
(** ** normalize_level *)

Definition ALLOWED_LEVELS : list string := ["ERROR"; "WARNING"; "INFO"; "DEBUG"].

Definition in_levels (s : string) : bool := existsb (String.eqb s) ALLOWED_LEVELS.

(** [if not l: return "INFO"]; [l.strip().upper()] raises on anything
    that is not a string. *)
Definition normalize_level (l : json) : res string :=
  if negb (truthy l) then Ok "INFO"
  else match l with
       | JStr s =>
           let lvl := py_upper (py_strip s) in
           if in_levels lvl then Ok lvl else Ok "INFO"
       | _ => Err "AttributeError: object has no attribute 'strip'"
       end.

(** [str(x)] for the label values of the Prometheus counter
    ([labels()] applies [str] to each value); quotes inside strings are
    not escaped in this model of [repr]. *)
Fixpoint py_repr (j : json) : string :=
  match j with
  | JNull => "None"
  | JBool true => "True"
  | JBool false => "False"
  | JNum z => z_to_dec z
  | JStr s => "'" ++ s ++ "'"
  | JArr l => "[" ++ String.concat ", " (map py_repr l) ++ "]"
  | JObj l =>
      "{" ++ String.concat ", " (map (fun kv => "'" ++ fst kv ++ "': " ++ py_repr (snd kv)) l)
      ++ "}"
  end.

Definition py_str (j : json) : string :=
  match j with JStr s => s | _ => py_repr j end.

(* ------------------------------------------------------------------ *)
(** ** The [logs] table *)

(** A TEXT column value; [None] is SQL NULL. *)
Definition sqlval := option string.

(** A [TIMESTAMP WITH TIME ZONE] / Python datetime. *)
Definition Tm := Z.

Record Row := mkRow {
  r_id : nat;                (* id SERIAL PRIMARY KEY *)
  r_event_id : sqlval;       (* event_id TEXT UNIQUE *)
  r_level : sqlval;
  r_message : sqlval;
  r_client_name : sqlval;
  r_type : sqlval;
  r_timestamp : option Tm    (* timestamp TIMESTAMP WITH TIME ZONE, NULL allowed *)
}.

(** The table and the state of its SERIAL sequence. *)
Record Db := mkDb { db_rows : list Row; db_seq : nat }.

(** The parameters of the [INSERT] of [collect]. *)
Record Params := mkParams {
  p_event_id : sqlval;
  p_level : sqlval;
  p_message : sqlval;
  p_client_name : sqlval;
  p_type : sqlval;
  p_timestamp : Tm
}.

(** UNIQUE: two NULLs never conflict. *)
Definition conflicts (k : sqlval) (r : Row) : bool :=
  match k, r_event_id r with
  | Some a, Some b => String.eqb a b
  | _, _ => false
  end.

(** [INSERT INTO logs (...) VALUES (...) ON CONFLICT (event_id) DO NOTHING]:
    [nextval] is taken for the row before the conflict check. *)
Definition sql_insert (d : Db) (p : Params) : Db :=
  let n := S (db_seq d) in
  if existsb (conflicts (p_event_id p)) (db_rows d)
  then mkDb (db_rows d) n
  else mkDb (db_rows d ++ [mkRow n (p_event_id p) (p_level p) (p_message p)
                              (p_client_name p) (p_type p) (Some (p_timestamp p))]) n.

(* ------------------------------------------------------------------ *)
(** ** Observable side effects and the process state *)

(** Label values (level, client, type) of [logs_total]. *)
Definition label : Type := (string * string * string)%type.

(** The body posted to the Splunk HEC (only its variable parts). *)
Record SplunkPayload := mkSplunk {
  sp_time : Tm;              (* "time": timestamp.isoformat() *)
  sp_host : json;            (* "host": client_name *)
  sp_event_id : json;
  sp_level : string;
  sp_message : json;
  sp_client_name : json;
  sp_type : json
}.

Inductive effect : Type :=
| DbCommit (p : Params)                    (* INSERT executed and committed *)
| CounterInc (k : label)                   (* log_counter.labels(...).inc() *)
| PersistorPost (url : string) (body : json)
| SplunkPost (url : string) (payload : SplunkPayload)
| LogLine (lvl : string) (msg : string).

Record St := mkSt {
  st_db : Db;
  st_counter : gmap label nat;
  st_trace : list effect
}.

(** State and exception monad: a raised exception keeps the effects
    already performed. *)
Definition M (A : Type) : Type := St -> res A * St.

Global Instance M_ret : MRet M := fun A a s => (Ok a, s).
Global Instance M_bind : MBind M := fun A B f m s =>
  match m s with
  | (Ok a, s') => f a s'
  | (Err e, s') => (Err e, s')
  end.

Definition lift {A} (r : res A) : M A := fun s => (r, s).

(** [try: m except Exception as e: h(e)] *)
Definition try_catch {A} (m : M A) (h : string -> M A) : M A := fun s =>
  match m s with
  | (Err e, s') => h e s'
  | r => r
  end.

Definition emit (eff : effect) : M unit := fun s =>
  (Ok tt, mkSt (st_db s) (st_counter s) (st_trace s ++ [eff])).

Definition log_line (lvl msg : string) : M unit := emit (LogLine lvl msg).

(** The line Flask's [log_exception] writes for an exception escaping a view. *)
Definition flask_exception_log (path meth : string) : effect :=
  LogLine "ERROR" ("Exception on " ++ path ++ " [" ++ meth ++ "]").

(* ------------------------------------------------------------------ *)
(** ** What the outside world decides for one request *)

Inductive http_answer : Type :=
| HttpStatus (code : Z) (text : string)
| HttpRaise (msg : string).          (* requests raises (timeout, refused) *)

Record Env := mkEnv {
  now_ms : Z;                        (* int(time.time() * 1000) *)
  utcnow : Tm;                       (* datetime.utcnow() *)
  db_error : option string;          (* psycopg2.connect/execute raises *)
  persistor_answer : http_answer;
  splunk_answer : http_answer
}.

(** [requests.post]: the request is sent, then the answer comes back or
    the call raises. *)
Definition http_post (a : http_answer) (eff : effect) : M (Z * string) :=
  emit eff ;;
  match a with
  | HttpStatus c t => mret (c, t)
  | HttpRaise m => lift (Err m)
  end.

(* ------------------------------------------------------------------ *)
(** ** Configuration constants (environment defaults) *)

Definition PERSISTORS : list (string * string) :=
  [("auth", "http://persistor-auth:6000");
   ("payment", "http://persistor-payment:6000");
   ("system", "http://persistor-system:6000");
   ("application", "http://persistor-application:6000")].

Definition SPLUNK_HEC : string := "http://splunk:8088/services/collector".

Definition CONTENT_TYPE_LATEST : string := "text/plain; version=0.0.4; charset=utf-8".

Fixpoint assoc_str (l : list (string * string)) (k : string) : option string :=
  match l with
  | [] => None
  | (k', v) :: l' => if String.eqb k k' then Some v else assoc_str l' k
  end.

(** [PERSISTORS.get(log_type)]: lists and dicts are unhashable. *)
Definition persistor_get (t : json) : res (option string) :=
  match t with
  | JStr s => Ok (assoc_str PERSISTORS s)
  | JArr _ => Err "unhashable type: 'list'"
  | JObj _ => Err "unhashable type: 'dict'"
  | _ => Ok None
  end.

Inductive resp_body : Type :=
| BStatusOk                          (* {"status": "ok"} *)
| BInvalidPayload                    (* {"error": "invalid payload"} *)
| BError (msg : string)              (* {"error": str(e)} *)
| BInternalServerError               (* Flask's page for an uncaught exception *)
| BHttpError (name : string).        (* Flask's page for an HTTPException (abort) *)

Definition response : Type := (Z * resp_body)%type.

(* ------------------------------------------------------------------ *)
(** ** The handlers *)

Section Collector.

(** [datetime.fromisoformat] on a string. *)
Context (parse_iso : string -> option Tm).
(** psycopg2 adaptation of a Python value into a value of a TEXT column
    ([None] when psycopg2 or Postgres raises). *)
Context (adapt : json -> option sqlval).
(** [prometheus_client.generate_latest] *)
Context (generate_latest : gmap label nat -> string).

(** [datetime.fromisoformat(ts)]: a TypeError for a non-string. *)
Definition fromisoformat (ts : json) : res Tm :=
  match ts with
  | JStr s => match parse_iso s with Some t => Ok t | None => Err "ValueError: Invalid isoformat string" end
  | _ => Err "TypeError: fromisoformat: argument must be str"
  end.

(** [try: timestamp = datetime.fromisoformat(ts) if ts else datetime.utcnow()
     except Exception: timestamp = datetime.utcnow()] *)
Definition parse_timestamp (e : Env) (ts : json) : Tm :=
  match (if truthy ts then fromisoformat ts else Ok (utcnow e)) with
  | Ok t => t
  | Err _ => utcnow e
  end.

Definition adapt_params (event_id : json) (level : string)
    (message client_name log_type : json) (ts : Tm) : res Params :=
  match adapt event_id, adapt (JStr level), adapt message, adapt client_name,
        adapt log_type with
  | Some a, Some b, Some c, Some d, Some t => Ok (mkParams a b c d t ts)
  | _, _, _, _, _ => Err "psycopg2.ProgrammingError: can't adapt type"
  end.

(** [with get_conn() as conn: ... cur.execute(INSERT ...); conn.commit()] *)
Definition save_to_postgres (e : Env) (event_id : json) (level : string)
    (message client_name log_type : json) (ts : Tm) : M unit := fun s =>
  match db_error e with
  | Some m => (Err m, s)
  | None =>
      match adapt_params event_id level message client_name log_type ts with
      | Err m => (Err m, s)
      | Ok p => (Ok tt, mkSt (sql_insert (st_db s) p) (st_counter s)
                              (st_trace s ++ [DbCommit p]))
      end
  end.

(** [log_counter.labels(level=..., client=..., type=...).inc()] *)
Definition counter_inc (k : label) : M unit := fun s =>
  (Ok tt, mkSt (st_db s) (<[k := S (default 0 (st_counter s !! k))]> (st_counter s))
               (st_trace s ++ [CounterInc k])).

Definition forward_to_splunk (e : Env) (event_id : json) (level : string)
    (message client_name log_type : json) (ts : Tm) : M unit :=
  let payload := mkSplunk ts client_name event_id level message client_name log_type in
  try_catch
    (r ← http_post (splunk_answer e) (SplunkPost SPLUNK_HEC payload);
     if existsb (Z.eqb (fst r)) [200; 201]%Z then mret tt
     else log_line "ERROR" ("Splunk HEC error: " ++ snd r))
    (fun m => log_line "WARNING" ("Failed to send log to Splunk: " ++ m)).

(** [if persistor_url: try: requests.post(f"{persistor_url}/store", json=event)
     except Exception as e: logging.warning(...)] *)
Definition forward_to_persistor (e : Env) (log_type : json) (purl : option string)
    (event : json) : M unit :=
  match purl with
  | Some url =>
      if String.eqb url "" then mret tt
      else try_catch
             (_ ← http_post (persistor_answer e) (PersistorPost (url ++ "/store") event); mret tt)
             (fun m => log_line "WARNING"
                        ("Failed to forward to " ++ py_str log_type ++ " persistor: " ++ m))
  | None => mret tt
  end.

(** The body of [collect], [event] being [request.get_json()]. *)
Definition collect (e : Env) (event : json) : M response :=
  if negb (truthy event) then mret (400%Z, BInvalidPayload) else
  eid ← lift (dict_get event "event_id" JNull);
  let event_id := if truthy eid then eid else JStr (z_to_dec (now_ms e)) in
  l ← lift (dict_get event "level" JNull);
  level ← lift (normalize_level l);
  message ← lift (dict_get event "message" (JStr ""));
  client_name ← lift (dict_get event "client_name" (JStr "unknown"));
  log_type ← lift (dict_get event "type" (JStr "application"));
  ts ← lift (dict_get event "timestamp" JNull);
  let timestamp := parse_timestamp e ts in
  try_catch
    (save_to_postgres e event_id level message client_name log_type timestamp;;
     counter_inc (level, py_str client_name, py_str log_type);;
     purl ← lift (persistor_get log_type);
     forward_to_persistor e log_type purl event;;
     forward_to_splunk e event_id level message client_name log_type timestamp;;
     mret (200%Z, BStatusOk))
    (fun m => log_line "ERROR" ("Processing error: " ++ m);; mret (500%Z, BError m)).

(** Flask answers an exception escaping the view with a 500 page, after
    [log_exception] has logged it ([app.logger.error(f"Exception on
    {request.path} [{request.method}]", exc_info=...)]). *)
Definition handle_collect (e : Env) (event : json) : M response := fun s =>
  match collect e event s with
  | (Err _, s') => (Ok (500%Z, BInternalServerError),
                    mkSt (st_db s') (st_counter s') (st_trace s' ++ [flask_exception_log "/collect" "POST"]))
  | r => r
  end.

(** The body of the POST as Flask sees it: whether its Content-Type is
    JSON, and the decoded value ([None] when the body is not a JSON text,
    the empty body included). *)
Record request := mkReq { rq_is_json : bool; rq_json : option json }.

Inductive get_json_result : Type :=
| GJValue (j : json)
| GJAbort (code : Z) (name : string).

(** [request.get_json()] (Flask 2.3 and later): without a JSON Content-Type
    it aborts with 415, on a body that does not parse with 400; an
    HTTPException is answered with its own page and not logged. *)
Definition get_json (rq : request) : get_json_result :=
  if negb (rq_is_json rq) then GJAbort 415 "Unsupported Media Type"
  else match rq_json rq with
       | Some j => GJValue j
       | None => GJAbort 400 "Bad Request"
       end.

(** The whole view: [event = request.get_json()], then the rest of [collect]. *)
Definition handle_collect_request (e : Env) (rq : request) : M response := fun s =>
  match get_json rq with
  | GJValue j => handle_collect e j s
  | GJAbort code name => (Ok (code, BHttpError name), s)
  end.

(** [/metrics]: [generate_latest(), 200, {"Content-Type": CONTENT_TYPE_LATEST}] *)
Definition metrics : M (string * Z * string) := fun s =>
  (Ok (generate_latest (st_counter s), 200%Z, CONTENT_TYPE_LATEST), s).

(** A sequence of POSTs to [/collect], each with its own environment. *)
Fixpoint run_requests (reqs : list (Env * json)) : M (list response) :=
  match reqs with
  | [] => mret []
  | (e, ev) :: rest => r ← handle_collect e ev; rs ← run_requests rest; mret (r :: rs)
  end.

End Collector.

(* ------------------------------------------------------------------ *)
(** ** Vocabulary of the properties *)

Definition is_ok {A} (r : res A) : bool := match r with Ok _ => true | Err _ => false end.


Definition is_splunk_post (f : effect) : bool :=
  match f with SplunkPost _ _ => true | _ => false end.
Definition is_persistor_post (f : effect) : bool :=
  match f with PersistorPost _ _ => true | _ => false end.
Definition is_counter_inc (f : effect) : bool :=
  match f with CounterInc _ => true | _ => false end.

(** The four categories that have a persistor. *)
Definition is_category (t : json) : bool :=
  match t with
  | JStr s => existsb (String.eqb s) ["auth"; "payment"; "system"; "application"]
  | _ => false
  end.

Definition persistor_store_url (t : json) : string :=
  "http://persistor-" ++ py_str t ++ ":6000/store".

(** The log lines written after a failed forward. *)
Definition persistor_log (t : json) (a : http_answer) : list effect :=
  match a with
  | HttpRaise m => [LogLine "WARNING" ("Failed to forward to " ++ py_str t ++ " persistor: " ++ m)]
  | HttpStatus _ _ => []
  end.

Definition splunk_log (a : http_answer) : list effect :=
  match a with
  | HttpRaise m => [LogLine "WARNING" ("Failed to send log to Splunk: " ++ m)]
  | HttpStatus c t =>
      if (c =? 200)%Z || (c =? 201)%Z then [] else [LogLine "ERROR" ("Splunk HEC error: " ++ t)]
  end.

Section Fields.
Context (parse_iso : string -> option Tm) (adapt : json -> option sqlval).

(** The values [collect] reads from a JSON object. *)
Definition event_id_of (e : Env) (fs : list (string * json)) : json :=
  let eid := py_dict_get fs "event_id" JNull in
  if truthy eid then eid else JStr (z_to_dec (now_ms e)).
Definition level_of (fs : list (string * json)) : res string :=
  normalize_level (py_dict_get fs "level" JNull).
Definition message_of (fs : list (string * json)) : json := py_dict_get fs "message" (JStr "").
Definition client_of (fs : list (string * json)) : json :=
  py_dict_get fs "client_name" (JStr "unknown").
Definition type_of (fs : list (string * json)) : json :=
  py_dict_get fs "type" (JStr "application").
Definition timestamp_of (e : Env) (fs : list (string * json)) : Tm :=
  parse_timestamp parse_iso e (py_dict_get fs "timestamp" JNull).

Definition params_of (e : Env) (fs : list (string * json)) : res Params :=
  match level_of fs with
  | Ok level => adapt_params adapt (event_id_of e fs) level (message_of fs) (client_of fs)
                  (type_of fs) (timestamp_of e fs)
  | Err m => Err m
  end.

Definition key_of (level : string) (fs : list (string * json)) : label :=
  (level, py_str (client_of fs), py_str (type_of fs)).

Definition payload_of (e : Env) (level : string) (fs : list (string * json)) : SplunkPayload :=
  mkSplunk (timestamp_of e fs) (client_of fs) (event_id_of e fs) level (message_of fs)
    (client_of fs) (type_of fs).

(** A request that gets through [collect] up to its [return ..., 200]:
    a non-empty JSON object whose level normalises, whose database write
    does not raise, and whose type can be looked up in [PERSISTORS]. *)
Definition accepted (e : Env) (event : json) : bool :=
  match event with
  | JObj fs =>
      truthy event && negb (bool_decide (db_error e <> None)) && is_ok (params_of e fs)
      && is_ok (persistor_get (type_of fs))
  | _ => false
  end.

(** The exception the database write raises, for a request that reaches it. *)
Definition db_write_error (e : Env) (fs : list (string * json)) : option string :=
  match level_of fs with
  | Ok level =>
      match db_error e with
      | Some m => Some m
      | None =>
          match adapt_params adapt (event_id_of e fs) level (message_of fs) (client_of fs)
                  (type_of fs) (timestamp_of e fs) with
          | Err m => Some m
          | Ok _ => None
          end
      end
  | Err _ => None
  end.


End Fields.

(* ------------------------------------------------------------------ *)
(** ** /logs, /analyze and the start-up of the service *)

(** [int(x)] on a query-string value: surrounding whitespace, an optional
    sign, decimal digits with single underscores between digits. *)
Definition is_digit (c : Ascii.ascii) : bool :=
  let n := Ascii.nat_of_ascii c in ((48 <=? n) && (n <=? 57))%nat.

Definition digit_val (c : Ascii.ascii) : Z := Z.of_nat (Ascii.nat_of_ascii c - 48).

Fixpoint digits_us (s : string) (acc : Z) (prev_us : bool) : option Z :=
  match s with
  | EmptyString => if prev_us then None else Some acc
  | String c s' =>
      if is_digit c then digits_us s' (acc * 10 + digit_val c)%Z false
      else if Ascii.eqb c (Ascii.ascii_of_nat 95) then (if prev_us then None else digits_us s' acc true)
      else None
  end.

Definition int_body (s : string) : option Z :=
  match s with
  | String c _ => if is_digit c then digits_us s 0 false else None
  | EmptyString => None
  end.

Definition py_int (s : string) : option Z :=
  match py_strip s with
  | String c r =>
      if Ascii.eqb c (Ascii.ascii_of_nat 45) then option_map Z.opp (int_body r)
      else if Ascii.eqb c (Ascii.ascii_of_nat 43) then int_body r
      else int_body (String c r)
  | EmptyString => None
  end.

(** One row of the [/logs] answer (the timestamp is sent as isoformat). *)
Record LogView := mkView {
  v_event_id : sqlval;
  v_level : sqlval;
  v_message : sqlval;
  v_client_name : sqlval;
  v_type : sqlval;
  v_timestamp : Tm
}.

(** [r["timestamp"] = r["timestamp"].isoformat()]: raises on a NULL
    timestamp. *)
Definition view_of (r : Row) : res LogView :=
  match r_timestamp r with
  | Some t => Ok (mkView (r_event_id r) (r_level r) (r_message r) (r_client_name r) (r_type r) t)
  | None => Err "'NoneType' object has no attribute 'isoformat'"
  end.

(** [for r in rows: ...], stopping at the first exception. *)
Fixpoint views (rows : list Row) : res (list LogView) :=
  match rows with
  | [] => Ok []
  | r :: rs =>
      match view_of r with
      | Err m => Err m
      | Ok v => match views rs with Ok vs => Ok (v :: vs) | Err m => Err m end
      end
  end.

(** [ORDER BY timestamp DESC]: newest first, NULLs first (the default
    for DESC). [ts_geb a b]: [a] may come before [b]. *)
Definition ts_geb (a b : Row) : bool :=
  match r_timestamp a, r_timestamp b with
  | None, _ => true
  | Some _, None => false
  | Some x, Some y => (y <=? x)%Z
  end.

Definition ts_ge (a b : Row) : Prop := ts_geb a b = true.

Global Instance ts_ge_dec : RelDecision ts_ge := fun a b => decide (ts_geb a b = true).

(** Postgres' [bigint] range, which [LIMIT] takes. *)
Definition BIGINT_MAX : Z := 9223372036854775807.

(** [SELECT level, COUNT( * ) FROM logs GROUP BY level] as the dict
    [{level: count}]. *)
Definition level_counts (rows : list Row) : gmap sqlval nat :=
  foldr (fun r m => <[r_level r := S (default 0 (m !! r_level r))]> m) ∅ rows.

Definition count_level (rows : list Row) (lv : sqlval) : nat :=
  length (List.filter (fun r => bool_decide (r_level r = lv)) rows).

Section Queries.
(** An order Postgres may return the rows in for [ORDER BY timestamp DESC]
    (rows with equal timestamps come in an unspecified order). *)
Context (order_rows : list Row -> list Row).

(** [/logs]: [limit = int(request.args.get("limit", "500"))], then the
    query; nothing is caught, so an exception becomes Flask's 500. *)
Definition get_logs (e : Env) (limit_arg : option string) : M (list LogView) := fun s =>
  let arg := match limit_arg with Some a => a | None => "500" end in
  match py_int arg with
  | None => (Err "ValueError: invalid literal for int() with base 10", s)
  | Some limit =>
      match db_error e with
      | Some m => (Err m, s)
      | None =>
          if (BIGINT_MAX <? limit)%Z then (Err "bigint out of range", s)
          else if (limit <? 0)%Z then (Err "LIMIT must not be negative", s)
          else (views (firstn (Z.to_nat limit) (order_rows (db_rows (st_db s)))), s)
      end
  end.

Definition handle_get_logs (e : Env) (limit_arg : option string)
    : M (Z * option (list LogView)) := fun s =>
  match get_logs e limit_arg s with
  | (Ok rows, s') => (Ok (200%Z, Some rows), s')
  | (Err _, s') =>
      (Ok (500%Z, None),
       mkSt (st_db s') (st_counter s') (st_trace s' ++ [flask_exception_log "/logs" "GET"]))
  end.

End Queries.

(** [/analyze] *)
Definition analyze (e : Env) : M (gmap sqlval nat) := fun s =>
  match db_error e with
  | Some m => (Err m, s)
  | None => (Ok (level_counts (db_rows (st_db s))), s)
  end.

(** Flask serialises [{"counts": stats}] with [sort_keys=True]: [sorted]
    raises TypeError when a [None] key sits beside a [str] key. *)
Definition keys_sortable (m : gmap sqlval nat) : bool :=
  negb (bool_decide (is_Some (m !! None)) &&
        existsb (fun kv => match kv.1 with Some _ => true | None => false end) (map_to_list m)).

Definition handle_analyze (e : Env) : M (Z * option (gmap sqlval nat)) := fun s =>
  match analyze e s with
  | (Ok m, s') =>
      if keys_sortable m then (Ok (200%Z, Some m), s')
      else (Ok (500%Z, None),
            mkSt (st_db s') (st_counter s') (st_trace s' ++ [flask_exception_log "/analyze" "GET"]))
  | (Err _, s') =>
      (Ok (500%Z, None),
       mkSt (st_db s') (st_counter s') (st_trace s' ++ [flask_exception_log "/analyze" "GET"]))
  end.

(** [init_db]: [CREATE TABLE IF NOT EXISTS logs (...)]; [None] is "no
    table yet", [conn_err] the exception of [get_conn]/[execute]. *)
Definition init_db (tbl : option Db) (conn_err : option string) : res (option Db) :=
  match conn_err with
  | Some m => Err m
  | None => Ok (Some (match tbl with Some d => d | None => mkDb [] 0 end))
  end.

Inductive boot_event : Type :=
| InitAttempt (i : nat)
| WaitLog (msg : string)          (* logging.warning("Waiting for Postgres... %s") *)
| Sleep2                          (* time.sleep(2) *)
| AppRun.                         (* app.run(host="0.0.0.0", port=5002) *)

(** [for i in range(10): try: init_db(); break
     except Exception as e: logging.warning(...); time.sleep(2)] *)
Fixpoint boot_loop (i fuel : nat) (conn : nat -> option string) (tbl : option Db)
    : list boot_event * option Db :=
  match fuel with
  | O => ([], tbl)
  | S f =>
      match init_db tbl (conn i) with
      | Ok t => ([InitAttempt i], t)
      | Err m =>
          let (evs, t) := boot_loop (S i) f conn tbl in
          (InitAttempt i :: WaitLog ("Waiting for Postgres... " ++ m) :: Sleep2 :: evs, t)
      end
  end.

(** [if __name__ == "__main__":] the loop, then [app.run]. *)
Definition main (conn : nat -> option string) (tbl : option Db) : list boot_event * option Db :=
  let (evs, t) := boot_loop 0 10 conn tbl in ((evs ++ [AppRun])%list, t).

Definition is_init_attempt (b : boot_event) : bool :=
  match b with InitAttempt _ => true | _ => false end.

Definition is_sleep (b : boot_event) : bool :=
  match b with Sleep2 => true | _ => false end.

(** A [level] column value that is one of [ALLOWED_LEVELS] (not NULL). *)
Definition level_allowed (v : sqlval) : bool :=
  match v with Some l => in_levels l | None => false end.

Definition levels_ok (d : Db) : bool := forallb (fun r => level_allowed (r_level r)) (db_rows d).

(** Every row has a (non-NULL) timestamp. *)
Definition timestamps_ok (d : Db) : bool :=
  forallb (fun r => match r_timestamp r with Some _ => true | None => false end) (db_rows d).

(* ------------------------------------------------------------------ *)
(** ** Concrete library behaviour used to run the handler on examples *)

(** [datetime.fromisoformat] on one known string. *)
Definition iso_example (s : string) : option Tm :=
  if String.eqb s "2024-01-01T00:00:00" then Some 1704067200000000%Z else None.

(** psycopg2 adaptation: str, int, bool and None go into a TEXT column, an
    empty list becomes '{}', anything else raises. *)
Definition adapt_example (j : json) : option sqlval :=
  match j with
  | JNull => Some None
  | JBool b => Some (Some (if b then "true" else "false"))
  | JNum z => Some (Some (z_to_dec z))
  | JStr s => Some (Some s)
  | JArr [] => Some (Some "{}")
  | _ => None
  end.

(** Everything up: Postgres reachable, both services answer 200. *)
Definition env_up : Env :=
  mkEnv 1700000000000%Z 1700000000000000%Z None (HttpStatus 200 "") (HttpStatus 200 "").

Definition st_empty : St := mkSt (mkDb [] 0) ∅ [].

Definition env_splunk_down : Env :=
  mkEnv 1700000000000%Z 1700000000000000%Z None (HttpStatus 200 "")
    (HttpRaise "ConnectionError: splunk:8088").

Definition env_db_down : Env :=
  mkEnv 1700000000000%Z 1700000000000000%Z (Some "could not connect to server")
    (HttpStatus 200 "") (HttpStatus 200 "").

(** A well-formed event. *)
Definition fs_ok : list (string * json) :=
  [("event_id", JStr "e1"); ("level", JStr " error "); ("message", JStr "disk full");
   ("client_name", JStr "web-1"); ("type", JStr "system");
   ("timestamp", JStr "2024-01-01T00:00:00")].

Definition params_ok : Params :=
  mkParams (Some "e1") (Some "ERROR") (Some "disk full") (Some "web-1") (Some "system")
    1704067200000000%Z.

(** Two events without an event_id. *)
Definition fs_anon1 : list (string * json) := [("message", JStr "first")].
Definition fs_anon2 : list (string * json) := [("event_id", JStr ""); ("message", JStr "second")].

(** A table kept from an earlier run of the process, whose counter
    started again from zero. *)
Definition st_restarted : St :=
  mkSt (mkDb [mkRow 1 (Some "old") (Some "INFO") (Some "") (Some "unknown")
                (Some "application") (Some 0%Z)] 1) ∅ [].

(** A table that also holds a row written by another client, with NULL
    level, type and timestamp. *)
Definition st_foreign : St :=
  mkSt (mkDb [mkRow 1 (Some "old") (Some "INFO") (Some "") (Some "unknown")
                (Some "application") (Some 0%Z);
              mkRow 2 (Some "ext") None (Some "imported") None None None] 2) ∅ [].

(** One order [ORDER BY timestamp DESC] may give: a stable merge sort. *)
Definition order_example : list Row -> list Row := merge_sort ts_ge.

(** Postgres refuses the first three connections, then accepts. *)
Definition conn_late (i : nat) : option string :=
  if (i <? 3)%nat then Some "connection refused" else None.

Definition conn_never (i : nat) : option string := Some "connection refused".

Definition is_log_line (f : effect) : bool :=
  match f with LogLine _ _ => true | _ => false end.

(* ------------------------------------------------------------------ *)
(** * Properties *)

Section Proofs.
Context (parse_iso : string -> option Tm) (adapt : json -> option sqlval).

Lemma forward_to_persistor_spec e t purl ev s :
  persistor_get t = Ok purl ->
  forward_to_persistor e t purl ev s =
  (Ok tt, mkSt (st_db s) (st_counter s)
            (st_trace s ++ (if is_category t
                            then PersistorPost (persistor_store_url t) ev
                                   :: persistor_log t (persistor_answer e)
                            else []))).
Proof.
  intros H. destruct t as [| | |str| |]; simpl in H; inversion H; subst; clear H;
    try (simpl; rewrite app_nil_r; destruct s; reflexivity).
  unfold is_category, assoc_str, PERSISTORS; simpl.
  destruct (String.eqb_spec str "auth"); [subst|];
  [|destruct (String.eqb_spec str "payment"); [subst|];
  [|destruct (String.eqb_spec str "system"); [subst|];
  [|destruct (String.eqb_spec str "application"); [subst|]]]];
  simpl; try (rewrite app_nil_r; destruct s; reflexivity);
  unfold try_catch, http_post, mbind, M_bind, log_line, emit, mret, M_ret, lift;
  destruct (persistor_answer e); simpl; rewrite <- ?app_assoc; reflexivity.
Qed.

Lemma forward_to_splunk_spec e eid level msg cl t ts s :
  forward_to_splunk e eid level msg cl t ts s =
  (Ok tt, mkSt (st_db s) (st_counter s)
            (st_trace s ++ SplunkPost SPLUNK_HEC (mkSplunk ts cl eid level msg cl t)
                         :: splunk_log (splunk_answer e))).
Proof.
  unfold forward_to_splunk, try_catch, http_post, mbind, M_bind, emit, mret, M_ret, lift,
    log_line, emit, splunk_log.
  destruct (splunk_answer e) as [c txt|m]; simpl.
  - rewrite orb_false_r.
    destruct ((c =? 200)%Z || (c =? 201)%Z); simpl; rewrite <- ?app_assoc; reflexivity.
  - rewrite <- app_assoc. reflexivity.
Qed.

Lemma collect_accepted e fs s level p purl :
  fs <> [] ->
  db_error e = None ->
  level_of fs = Ok level ->
  adapt_params adapt (event_id_of e fs) level (message_of fs) (client_of fs) (type_of fs)
    (timestamp_of parse_iso e fs) = Ok p ->
  persistor_get (type_of fs) = Ok purl ->
  collect parse_iso adapt e (JObj fs) s =
   (Ok (200%Z, BStatusOk),
    mkSt (sql_insert (st_db s) p)
      (<[key_of level fs := S (default 0 (st_counter s !! key_of level fs))]> (st_counter s))
      (st_trace s ++ [DbCommit p; CounterInc (key_of level fs)] ++
        (if is_category (type_of fs)
         then PersistorPost (persistor_store_url (type_of fs)) (JObj fs)
                :: persistor_log (type_of fs) (persistor_answer e)
         else []) ++
        SplunkPost SPLUNK_HEC (payload_of parse_iso e level fs) :: splunk_log (splunk_answer e))).
Proof.
  intros Hne Hdb Hl Hp Ht.
  destruct fs as [|f fs']; [congruence|].
  unfold payload_of, key_of.
  unfold level_of, event_id_of, message_of, client_of, type_of, timestamp_of in *.
  unfold collect, mbind, M_bind, lift, mret, M_ret, dict_get, try_catch.
  cbn [truthy negb length Nat.eqb].
  rewrite Hl.
  unfold save_to_postgres. rewrite Hdb, Hp.
  unfold counter_inc. cbn. rewrite Ht.
  rewrite forward_to_persistor_spec by exact Ht. cbn.
  rewrite forward_to_splunk_spec. cbn.
  rewrite <- !app_assoc. reflexivity.
Qed.

Lemma forward_to_persistor_frame e t purl ev s :
  exists new : list effect, forward_to_persistor e t purl ev s =
    (Ok tt, mkSt (st_db s) (st_counter s) (st_trace s ++ new)%list) /\
    forall p', ~ In (DbCommit p') new.
Proof.
  unfold forward_to_persistor, try_catch, http_post, mbind, M_bind, log_line, emit, mret,
    M_ret, lift.
  destruct purl as [url|].
  - destruct (String.eqb url "").
    + exists []. rewrite app_nil_r. destruct s. split; [reflexivity|simpl; tauto].
    + destruct (persistor_answer e); simpl; rewrite <- ?app_assoc; eexists; split;
        try reflexivity; simpl; intros p' H; intuition congruence.
  - exists []. rewrite app_nil_r. destruct s. split; [reflexivity|simpl; tauto].
Qed.

Lemma params_of_obj e fs level :
  level_of fs = Ok level ->
  params_of parse_iso adapt e fs =
  adapt_params adapt (event_id_of e fs) level (message_of fs) (client_of fs) (type_of fs)
    (timestamp_of parse_iso e fs).
Proof. intros H. unfold params_of. rewrite H. reflexivity. Qed.

Lemma collect_db e ev s :
  exists new : list effect,
    st_trace (snd (collect parse_iso adapt e ev s)) = (st_trace s ++ new)%list /\
    ((st_db (snd (collect parse_iso adapt e ev s)) = st_db s /\
      forall p', ~ In (DbCommit p') new) \/
     (exists fs p, ev = JObj fs /\ params_of parse_iso adapt e fs = Ok p /\
        st_db (snd (collect parse_iso adapt e ev s)) = sql_insert (st_db s) p /\
        forall p', In (DbCommit p') new <-> p' = p)).
Proof.
  unfold collect.
  unfold mbind, M_bind, lift, mret, M_ret, dict_get, try_catch.
  destruct (truthy ev) eqn:Htr; simpl.
  2:{ exists []. split; [symmetry; apply app_nil_r|left; split; [reflexivity|simpl; tauto]]. }
  destruct ev as [| | | | |fs]; simpl;
    try (exists []; split; [symmetry; apply app_nil_r|left; split; [reflexivity|simpl; tauto]]).
  destruct (normalize_level (py_dict_get fs "level" JNull)) as [level|m] eqn:Hl; simpl;
    [|exists []; split; [symmetry; apply app_nil_r|left; split; [reflexivity|simpl; tauto]]].
  unfold save_to_postgres.
  destruct (db_error e) as [m|] eqn:Hdb.
  { exists [LogLine "ERROR" ("Processing error: " ++ m)]. simpl.
    split; [reflexivity|left; split; [reflexivity|simpl; intuition congruence]]. }
  destruct (adapt_params adapt _ _ _ _ _ _) as [p|m] eqn:Hp.
  2:{ exists [LogLine "ERROR" ("Processing error: " ++ m)]. simpl.
    split; [reflexivity|left; split; [reflexivity|simpl; intuition congruence]]. }
  assert (Hpo : params_of parse_iso adapt e fs = Ok p)
    by (rewrite (params_of_obj _ _ level Hl); exact Hp).
  unfold counter_inc. cbn.
  destruct (persistor_get (py_dict_get fs "type" (JStr "application"))) as [purl|m].
  2:{ eexists. simpl. rewrite <- !app_assoc. split; [reflexivity|].
      right. exists fs, p. split; [reflexivity|]. split; [exact Hpo|]. split; [reflexivity|].
      intros p'. simpl. intuition congruence. }
  match goal with
  | |- context [forward_to_persistor ?a ?b ?c ?d ?st] =>
      destruct (forward_to_persistor_frame a b c d st) as [new1 [Hf Hn1]]
  end.
  rewrite Hf. rewrite forward_to_splunk_spec. simpl.
  eexists. rewrite <- !app_assoc. split; [reflexivity|].
  right. exists fs, p. split; [reflexivity|]. split; [exact Hpo|]. split; [reflexivity|].
  intros p'. split.
  - intros H. simpl in H. destruct H as [H|[H|H]]; [congruence|congruence|].
    apply in_app_or in H. destruct H as [H|H]; [exfalso; exact (Hn1 p' H)|].
    simpl in H. destruct H as [H|H]; [congruence|].
    unfold splunk_log in H. destruct (splunk_answer e); [destruct (_ || _)|];
      simpl in H; intuition congruence.
  - intros ->. left. reflexivity.
Qed.

Lemma collect_db_error e fs s m :
  fs <> [] ->
  db_write_error parse_iso adapt e fs = Some m ->
  collect parse_iso adapt e (JObj fs) s =
  (Ok (500%Z, BError m),
   mkSt (st_db s) (st_counter s) (st_trace s ++ [LogLine "ERROR" ("Processing error: " +:+ m)])).
Proof.
  intros Hne H.
  destruct fs as [|f fs']; [congruence|].
  unfold db_write_error, level_of, event_id_of, message_of, client_of, type_of,
    timestamp_of in H.
  unfold collect, mbind, M_bind, lift, mret, M_ret, dict_get, try_catch.
  cbn [truthy negb length Nat.eqb].
  destruct (normalize_level _) as [level|m']; [|discriminate].
  unfold save_to_postgres.
  destruct (db_error e) as [m'|].
  - injection H as <-. reflexivity.
  - destruct (adapt_params adapt _ _ _ _ _ _); [discriminate|].
    injection H as <-. reflexivity.
Qed.

Lemma accepted_inv e ev :
  accepted parse_iso adapt e ev = true ->
  exists fs level p purl,
    ev = JObj fs /\ fs <> [] /\ db_error e = None /\ level_of fs = Ok level /\
    params_of parse_iso adapt e fs = Ok p /\
    adapt_params adapt (event_id_of e fs) level (message_of fs) (client_of fs) (type_of fs)
      (timestamp_of parse_iso e fs) = Ok p /\
    persistor_get (type_of fs) = Ok purl.
Proof.
  unfold accepted. destruct ev as [| | | | |fs]; try discriminate.
  intros H. apply andb_prop in H as [H Ht]. apply andb_prop in H as [H Hp].
  apply andb_prop in H as [Htr Hdb].
  destruct (persistor_get (type_of fs)) as [purl|] eqn:Hpg; [|discriminate].
  destruct (params_of parse_iso adapt e fs) as [p|] eqn:Hpo; [|discriminate].
  destruct (level_of fs) as [level|] eqn:Hl.
  2:{ unfold params_of in Hpo. rewrite Hl in Hpo. discriminate. }
  exists fs, level, p, purl.
  split; [reflexivity|].
  split; [destruct fs; simpl in Htr; congruence|].
  split.
  { rewrite negb_true_iff, bool_decide_eq_false in Hdb.
    destruct (db_error e); [exfalso; apply Hdb; discriminate|reflexivity]. }
  split; [exact Hl|]. split; [exact Hpo|].
  split; [rewrite <- (params_of_obj _ _ _ Hl); exact Hpo|exact Hpg].
Qed.

Lemma handle_collect_ok e ev s r s' :
  collect parse_iso adapt e ev s = (Ok r, s') ->
  handle_collect parse_iso adapt e ev s = (Ok r, s').
Proof. intros H. unfold handle_collect. rewrite H. reflexivity. Qed.

Lemma handle_collect_db e ev s :
  st_db (snd (handle_collect parse_iso adapt e ev s)) = st_db (snd (collect parse_iso adapt e ev s)).
Proof. unfold handle_collect. destruct (collect _ _ _ _ _) as [[]]; reflexivity. Qed.

Lemma handle_collect_counter e ev s :
  st_counter (snd (handle_collect parse_iso adapt e ev s)) =
  st_counter (snd (collect parse_iso adapt e ev s)).
Proof. unfold handle_collect. destruct (collect _ _ _ _ _) as [[]]; reflexivity. Qed.

(** The effects of the whole request: those of [collect], then Flask's
    log line when an exception escaped it. *)
Lemma handle_collect_trace e ev s :
  st_trace (snd (handle_collect parse_iso adapt e ev s)) =
  (st_trace (snd (collect parse_iso adapt e ev s)) ++
   match fst (collect parse_iso adapt e ev s) with
   | Ok _ => [] | Err _ => [flask_exception_log "/collect" "POST"] end)%list.
Proof.
  unfold handle_collect. destruct (collect _ _ _ _ _) as [[] ?]; simpl; [|reflexivity].
  symmetry. apply app_nil_r.
Qed.








Lemma sql_insert_conflict_iff k (rows : list Row) :
  existsb (conflicts k) rows = true <->
  exists r, In r rows /\ k <> None /\ r_event_id r = k.
Proof.
  rewrite existsb_exists. split.
  - intros [r [Hin Hc]]. exists r. split; [exact Hin|].
    unfold conflicts in Hc. destruct k as [a|]; [|discriminate].
    destruct (r_event_id r) as [b|]; [|discriminate].
    apply String.eqb_eq in Hc. subst. split; [discriminate|reflexivity].
  - intros [r [Hin [Hk Hr]]]. exists r. split; [exact Hin|].
    unfold conflicts. rewrite Hr. destruct k as [a|]; [|congruence].
    apply String.eqb_refl.
Qed.


Lemma sql_insert_has_key d p k :
  p_event_id p = Some k ->
  existsb (conflicts (Some k)) (db_rows (sql_insert d p)) = true.
Proof.
  intros Hk. unfold sql_insert. rewrite Hk.
  destruct (existsb (conflicts (Some k)) (db_rows d)) eqn:H; simpl; [exact H|].
  rewrite existsb_app. simpl. rewrite String.eqb_refl. apply orb_true_r.
Qed.

End Proofs.

Section Claims.
Context (parse_iso : string -> option Tm) (adapt : json -> option sqlval).
Context (generate_latest : gmap label nat -> string).

(** C1: the only change the request makes to the [logs] table is the
    [INSERT ... ON CONFLICT (event_id) DO NOTHING] of this event's
    parameters [p] (the values [collect] reads from this event), committed
    once by this request: when a row with the same (non-NULL) event_id is
    already present the rows are unchanged, otherwise exactly one row,
    carrying the event's fields, is appended.  A request that commits
    nothing leaves the rows as they are, and is not an accepted one: every
    accepted request commits its insert. *)
Theorem C1_insert_idempotent e ev s :
  let s' := snd (handle_collect parse_iso adapt e ev s) in
  exists new, st_trace s' = (st_trace s ++ new)%list /\
  ((db_rows (st_db s') = db_rows (st_db s) /\ (forall p, ~ In (DbCommit p) new) /\
    accepted parse_iso adapt e ev = false) \/
   (exists fs p, ev = JObj fs /\ params_of parse_iso adapt e fs = Ok p /\
     (forall p', In (DbCommit p') new <-> p' = p) /\
     ((exists r, In r (db_rows (st_db s)) /\ p_event_id p <> None /\
                 r_event_id r = p_event_id p) ->
        db_rows (st_db s') = db_rows (st_db s)) /\
     (~ (exists r, In r (db_rows (st_db s)) /\ p_event_id p <> None /\
                   r_event_id r = p_event_id p) ->
        db_rows (st_db s') =
        (db_rows (st_db s) ++
         [mkRow (S (db_seq (st_db s))) (p_event_id p) (p_level p) (p_message p)
                (p_client_name p) (p_type p) (Some (p_timestamp p))])%list))).
Proof.
  intros s'. subst s'. rewrite handle_collect_db, handle_collect_trace.
  set (tl := match fst (collect parse_iso adapt e ev s) with
             | Ok _ => [] | Err _ => [flask_exception_log "/collect" "POST"] end).
  assert (Htl : forall p, ~ In (DbCommit p) tl).
  { intros p. subst tl. destruct (fst _); simpl; [tauto|]. intros [H|[]]. discriminate. }
  destruct (collect_db parse_iso adapt e ev s)
    as [new [Htr [[Hdb Hno]|(fs & p & -> & Hp & Hdb & Hin)]]].
  - exists (new ++ tl)%list. split; [rewrite Htr, app_assoc; reflexivity|].
    left. split; [rewrite Hdb; reflexivity|]. split.
    + intros p H. apply in_app_or in H as [H|H]; [exact (Hno p H)|exact (Htl p H)].
    + destruct (accepted parse_iso adapt e ev) eqn:Ha; [|reflexivity]. exfalso.
      destruct (accepted_inv parse_iso adapt e ev Ha)
        as (fs & level & p & purl & -> & Hne & Hdb' & Hl & _ & Hap & Ht).
      rewrite (collect_accepted parse_iso adapt e fs s level p purl Hne Hdb' Hl Hap Ht)
        in Htr.
      simpl in Htr. apply app_inv_head in Htr.
      apply (Hno p). rewrite <- Htr. left. reflexivity.
  - exists (new ++ tl)%list. split; [rewrite Htr, app_assoc; reflexivity|].
    right. exists fs, p. split; [reflexivity|]. split; [exact Hp|]. split.
    { intros p'. split; intros H.
      - apply in_app_or in H as [H|H]; [apply Hin, H|exfalso; exact (Htl p' H)].
      - apply in_or_app. left. apply Hin, H. }
    rewrite Hdb. unfold sql_insert. split; intros H.
    + apply sql_insert_conflict_iff in H. rewrite H. reflexivity.
    + destruct (existsb (conflicts (p_event_id p)) (db_rows (st_db s))) eqn:E.
      * exfalso. apply H, sql_insert_conflict_iff, E.
      * reflexivity.
Qed.

(** C2: on a string, [normalize_level] returns a member of
    [ALLOWED_LEVELS], and "INFO" whenever the stripped, upper-cased input
    is not one; a missing level (None) and the empty string give "INFO". *)
Theorem C2_normalize_level_allowed (str : string) :
  (exists lvl, normalize_level (JStr str) = Ok lvl /\ In lvl ALLOWED_LEVELS /\
     (in_levels (py_upper (py_strip str)) = false -> lvl = "INFO")) /\
  normalize_level JNull = Ok "INFO" /\ normalize_level (JStr "") = Ok "INFO".
Proof.
  split; [|split; reflexivity].
  unfold normalize_level. simpl truthy.
  destruct (String.eqb str "") eqn:E; simpl.
  - exists "INFO". split; [reflexivity|]. split; [simpl; tauto|].
    apply String.eqb_eq in E. subst. reflexivity.
  - destruct (in_levels (py_upper (py_strip str))) eqn:Hin.
    + eexists. split; [reflexivity|]. split; [|discriminate].
      unfold in_levels in Hin. apply existsb_exists in Hin as [x [Hx Heq]].
      apply String.eqb_eq in Heq. subst. exact Hx.
    + eexists. split; [reflexivity|]. split; [simpl; tauto|reflexivity].
Qed.


(** C4 (amended): for a request that [collect] takes to its 200 answer
    ([accepted]: a non-empty JSON object whose level is absent, falsy or a
    string, whose type is not a list or dict, and whose database write
    does not raise), the effects are, in this order and once each: the
    committed insert, the counter increment, the persistor POST exactly
    when the type is "auth", "payment", "system" or "application"
    (followed by a warning line when it raises), and the Splunk POST
    (followed by a log line when it raises or answers other than 200/201). *)
Theorem C4_effect_order e fs s level p :
  accepted parse_iso adapt e (JObj fs) = true ->
  level_of fs = Ok level ->
  params_of parse_iso adapt e fs = Ok p ->
  exists s',
    handle_collect parse_iso adapt e (JObj fs) s = (Ok (200%Z, BStatusOk), s') /\
    st_trace s' =
    (st_trace s ++ [DbCommit p; CounterInc (key_of level fs)] ++
     (if is_category (type_of fs)
      then PersistorPost (persistor_store_url (type_of fs)) (JObj fs)
             :: persistor_log (type_of fs) (persistor_answer e)
      else []) ++
     SplunkPost SPLUNK_HEC (payload_of parse_iso e level fs) :: splunk_log (splunk_answer e))%list.
Proof.
  intros Ha Hl Hp.
  destruct (accepted_inv parse_iso adapt e _ Ha)
    as (fs' & level' & p' & purl & Heq & Hne & Hdb & Hl' & Hp' & Hap & Ht).
  injection Heq as <-. rewrite Hl in Hl'. injection Hl' as <-.
  rewrite Hp in Hp'. injection Hp' as <-.
  eexists. split.
  - apply handle_collect_ok. apply (collect_accepted parse_iso adapt e fs s level p purl);
      assumption.
  - reflexivity.
Qed.

(** C5: for an accepted request, whatever the two services do (answer
    with any status or raise), [collect] answers 200 {"status": "ok"}, the
    insert and the counter increment come first, the Splunk POST is sent
    exactly once and the persistor POST once for the four categories (and
    never otherwise): no retry. *)
Theorem C5_forward_failures_swallowed e fs s :
  accepted parse_iso adapt e (JObj fs) = true ->
  fst (handle_collect parse_iso adapt e (JObj fs) s) = Ok (200%Z, BStatusOk) /\
  exists p k rest,
    st_trace (snd (handle_collect parse_iso adapt e (JObj fs) s)) =
      (st_trace s ++ DbCommit p :: CounterInc k :: rest)%list /\
    length (List.filter is_splunk_post rest) = 1%nat /\
    length (List.filter is_persistor_post rest) =
      (if is_category (type_of fs) then 1 else 0)%nat.
Proof.
  intros Ha.
  destruct (accepted_inv parse_iso adapt e _ Ha)
    as (fs' & level & p & purl & Heq & Hne & Hdb & Hl & _ & Hap & Ht).
  injection Heq as <-.
  rewrite (handle_collect_ok _ _ _ _ _ _ _
             (collect_accepted parse_iso adapt e fs s level p purl Hne Hdb Hl Hap Ht)).
  split; [reflexivity|].
  eexists p, _, _. split; [reflexivity|].
  assert (Hs : forall f, In f (splunk_log (splunk_answer e)) -> exists l m, f = LogLine l m).
  { unfold splunk_log. destruct (splunk_answer e) as [c t|m];
      [destruct (_ || _)|]; simpl; intros f Hf; intuition (subst; eauto). }
  assert (Hq : forall f, In f (persistor_log (type_of fs) (persistor_answer e)) ->
                         exists l m, f = LogLine l m).
  { unfold persistor_log. destruct (persistor_answer e); simpl;
      intros f Hf; intuition (subst; eauto). }
  assert (Hnil : forall (P : effect -> bool) l,
             (forall f, In f l -> exists a b, f = LogLine a b) ->
             P (LogLine "" "") = false ->
             (forall a b, P (LogLine a b) = P (LogLine "" "")) ->
             List.filter P l = []).
  { intros P l Hl' HP HP'. induction l as [|f l IHl]; [reflexivity|]. simpl.
    destruct (Hl' f (or_introl eq_refl)) as (a & b & ->). rewrite HP', HP.
    apply IHl. intros f' Hf'. apply Hl'. right. exact Hf'. }
  assert (Happ : forall (P : effect -> bool) l1 l2,
             List.filter P (l1 ++ l2)%list = (List.filter P l1 ++ List.filter P l2)%list).
  { intros P l1 l2. induction l1 as [|f l1 IH1]; [reflexivity|]. simpl.
    destruct (P f); simpl; rewrite IH1; reflexivity. }
  destruct (is_category (type_of fs)); simpl; rewrite ?Happ; simpl;
    rewrite ?(Hnil is_splunk_post _ Hs), ?(Hnil is_splunk_post _ Hq),
      ?(Hnil is_persistor_post _ Hs), ?(Hnil is_persistor_post _ Hq) by reflexivity;
    split; reflexivity.
Qed.

(** C6: an accepted request adds one to the counter series of its label
    (normalised level, str(client_name), str(type)) and leaves every other
    series alone; [/metrics] renders the current counter. *)
Theorem C6_counter_increment e fs s level :
  accepted parse_iso adapt e (JObj fs) = true ->
  level_of fs = Ok level ->
  let s' := snd (handle_collect parse_iso adapt e (JObj fs) s) in
  st_counter s' !! key_of level fs = Some (S (default 0 (st_counter s !! key_of level fs))) /\
  (forall k, k <> key_of level fs -> st_counter s' !! k = st_counter s !! k) /\
  metrics generate_latest s' =
    (Ok (generate_latest (st_counter s'), 200%Z, CONTENT_TYPE_LATEST), s').
Proof.
  intros Ha Hl.
  destruct (accepted_inv parse_iso adapt e _ Ha)
    as (fs' & level' & p & purl & Heq & Hne & Hdb & Hl' & _ & Hap & Ht).
  injection Heq as <-. rewrite Hl in Hl'. injection Hl' as <-.
  simpl.
  rewrite (handle_collect_ok _ _ _ _ _ _ _
             (collect_accepted parse_iso adapt e fs s level p purl Hne Hdb Hl Hap Ht)).
  simpl. split; [apply lookup_insert_eq|]. split; [|reflexivity].
  intros k Hk. apply lookup_insert_ne. congruence.
Qed.

(** C7: when the database write of a request raises [m], [collect]
    answers 500 {"error": m}; the table and the counter are unchanged, and
    the only effect is the "Processing error" log line: no forward. *)
Theorem C7_db_error_500 e fs s m :
  fs <> [] ->
  db_write_error parse_iso adapt e fs = Some m ->
  handle_collect parse_iso adapt e (JObj fs) s =
  (Ok (500%Z, BError m),
   mkSt (st_db s) (st_counter s) (st_trace s ++ [LogLine "ERROR" ("Processing error: " +:+ m)])%list).
Proof.
  intros Hne Hw. apply handle_collect_ok. apply collect_db_error; assumption.
Qed.

(** C8 (amended): a POST with a JSON Content-Type whose body decodes to a
    falsy value (null, false, 0, "", [], {}) is answered
    400 {"error": "invalid payload"} with no effect at all; a POST whose
    body is not a JSON text (an empty body included) or that has no JSON
    Content-Type never gets there: [request.get_json()] aborts with Flask's
    own 400 or 415 page, also without any effect. *)
Theorem C8_falsy_payload_400 e rq s :
  (forall ev, rq_is_json rq = true -> rq_json rq = Some ev -> truthy ev = false ->
     handle_collect_request parse_iso adapt e rq s = (Ok (400%Z, BInvalidPayload), s)) /\
  (rq_json rq = None \/ rq_is_json rq = false ->
     exists code name,
       handle_collect_request parse_iso adapt e rq s = (Ok (code, BHttpError name), s) /\
       (code = 400%Z \/ code = 415%Z)).
Proof.
  unfold handle_collect_request, get_json. split.
  - intros ev Hj Hev Ht. rewrite Hj, Hev. simpl.
    unfold handle_collect, collect. rewrite Ht. reflexivity.
  - intros [H|H].
    + destruct (rq_is_json rq); simpl; [rewrite H|]; do 2 eexists; split; eauto.
    + rewrite H. simpl. do 2 eexists. split; eauto.
Qed.

(** C9: a request without a truthy event_id gets str(now in ms) as its
    id; two such accepted requests in the same millisecond get the same
    id (psycopg2 passes a str through), and the second one's insert is a
    no-op on the table while it is still answered 200 {"status": "ok"}. *)
Theorem C9_same_millisecond_dropped (Hstr : forall x, adapt (JStr x) = Some (Some x))
    e1 e2 fs1 fs2 s :
  truthy (py_dict_get fs1 "event_id" JNull) = false ->
  truthy (py_dict_get fs2 "event_id" JNull) = false ->
  now_ms e1 = now_ms e2 ->
  accepted parse_iso adapt e1 (JObj fs1) = true ->
  accepted parse_iso adapt e2 (JObj fs2) = true ->
  let s1 := snd (handle_collect parse_iso adapt e1 (JObj fs1) s) in
  event_id_of e1 fs1 = JStr (z_to_dec (now_ms e1)) /\
  event_id_of e2 fs2 = event_id_of e1 fs1 /\
  exists s2, handle_collect parse_iso adapt e2 (JObj fs2) s1 = (Ok (200%Z, BStatusOk), s2) /\
             db_rows (st_db s2) = db_rows (st_db s1).
Proof.
  intros H1 H2 Hms Ha1 Ha2 s1.
  assert (E1 : event_id_of e1 fs1 = JStr (z_to_dec (now_ms e1)))
    by (unfold event_id_of; rewrite H1; reflexivity).
  assert (E2 : event_id_of e2 fs2 = event_id_of e1 fs1)
    by (rewrite E1; unfold event_id_of; rewrite H2, Hms; reflexivity).
  split; [exact E1|]. split; [exact E2|].
  destruct (accepted_inv parse_iso adapt e1 _ Ha1)
    as (fs1' & l1 & p1 & u1 & Heq1 & Hne1 & Hdb1 & Hl1 & _ & Hap1 & Ht1).
  destruct (accepted_inv parse_iso adapt e2 _ Ha2)
    as (fs2' & l2 & p2 & u2 & Heq2 & Hne2 & Hdb2 & Hl2 & _ & Hap2 & Ht2).
  injection Heq1 as <-. injection Heq2 as <-.
  assert (Hid : forall e fs l p, adapt_params adapt (event_id_of e fs) l (message_of fs)
                   (client_of fs) (type_of fs) (timestamp_of parse_iso e fs) = Ok p ->
                 adapt (event_id_of e fs) = Some (p_event_id p)).
  { intros e fs l p H. unfold adapt_params in H.
    repeat (case_match; try discriminate). injection H as <-. simpl. congruence. }
  pose proof (Hid _ _ _ _ Hap1) as Hid1. pose proof (Hid _ _ _ _ Hap2) as Hid2.
  rewrite E1, Hstr in Hid1. rewrite E2, E1, Hstr in Hid2.
  injection Hid1 as Hid1. injection Hid2 as Hid2.
  unfold s1.
  rewrite (handle_collect_ok _ _ _ _ _ _ _
             (collect_accepted parse_iso adapt e1 fs1 s l1 p1 u1 Hne1 Hdb1 Hl1 Hap1 Ht1)).
  simpl.
  eexists. split.
  { apply handle_collect_ok.
    apply (collect_accepted parse_iso adapt e2 fs2 _ l2 p2 u2); assumption. }
  simpl. unfold sql_insert at 1. rewrite <- Hid2.
  rewrite (sql_insert_has_key (st_db s) p1 _ (eq_sym Hid1)). reflexivity.
Qed.


End Claims.

Example normalize_level_strips : normalize_level (JStr (String (Ascii.ascii_of_nat 9) " warning ")) = Ok "WARNING". Proof. reflexivity. Qed.
Example z_to_dec_ms : z_to_dec 1700000000123 = "1700000000123". Proof. reflexivity. Qed.
Example z_to_dec_zero : z_to_dec 0 = "0". Proof. reflexivity. Qed.

(** * Witnesses and counterexamples *)


(** C4: a truthy body whose level is an int: [5 .strip()] raises outside
    the [try], so there is no insert, no counter increment and no forward:
    Flask answers 500 and only logs the exception; and an accepted request
    whose Splunk POST raises also writes a log line. *)
Lemma C4_counterexample :
  truthy (JObj [("level", JNum 5)]) = true /\ db_error env_up = None /\
  handle_collect iso_example adapt_example env_up (JObj [("level", JNum 5)]) st_empty =
    (Ok (500%Z, BInternalServerError),
     mkSt (st_db st_empty) (st_counter st_empty) [flask_exception_log "/collect" "POST"]) /\
  accepted iso_example adapt_example env_splunk_down (JObj fs_ok) = true /\
  existsb is_log_line
    (st_trace (snd (handle_collect iso_example adapt_example env_splunk_down (JObj fs_ok)
                      st_empty))) = true.
Proof. vm_compute. repeat split; reflexivity. Qed.

Lemma C4_witness :
  accepted iso_example adapt_example env_up (JObj fs_ok) = true /\
  exists s', handle_collect iso_example adapt_example env_up (JObj fs_ok) st_empty =
             (Ok (200%Z, BStatusOk), s').
Proof.
  split; [vm_compute; reflexivity|].
  destruct (C4_effect_order iso_example adapt_example env_up fs_ok st_empty "ERROR" params_ok)
    as [s' [H _]]; [vm_compute; reflexivity|vm_compute; reflexivity|vm_compute; reflexivity|].
  exists s'. exact H.
Defined.

Lemma C5_witness :
  accepted iso_example adapt_example env_splunk_down (JObj fs_ok) = true /\
  fst (handle_collect iso_example adapt_example env_splunk_down (JObj fs_ok) st_empty) =
    Ok (200%Z, BStatusOk).
Proof.
  split; [vm_compute; reflexivity|].
  refine (proj1 (C5_forward_failures_swallowed iso_example adapt_example env_splunk_down
                   fs_ok st_empty _)).
  vm_compute. reflexivity.
Defined.

Lemma C6_witness :
  accepted iso_example adapt_example env_up (JObj fs_ok) = true /\
  st_counter (snd (handle_collect iso_example adapt_example env_up (JObj fs_ok) st_empty))
    !! ("ERROR", "web-1", "system") = Some 1%nat.
Proof.
  split; [vm_compute; reflexivity|].
  refine (proj1 (C6_counter_increment iso_example adapt_example (fun _ => "") env_up fs_ok
                   st_empty "ERROR" _ _)); vm_compute; reflexivity.
Defined.

Lemma C7_witness :
  db_write_error iso_example adapt_example env_db_down fs_ok =
    Some "could not connect to server" /\
  fst (handle_collect iso_example adapt_example env_db_down (JObj fs_ok) st_empty) =
    Ok (500%Z, BError "could not connect to server").
Proof.
  split; [vm_compute; reflexivity|].
  rewrite (C7_db_error_500 iso_example adapt_example env_db_down fs_ok st_empty
             "could not connect to server"); [reflexivity|discriminate|vm_compute; reflexivity].
Defined.

(** C8: a POST without a body is not answered {"error": "invalid
    payload"}: without a JSON Content-Type Flask answers 415, with one 400
    with its own "Bad Request" page. *)
Lemma C8_counterexample :
  handle_collect_request iso_example adapt_example env_up (mkReq false None) st_empty =
    (Ok (415%Z, BHttpError "Unsupported Media Type"), st_empty) /\
  handle_collect_request iso_example adapt_example env_up (mkReq true None) st_empty =
    (Ok (400%Z, BHttpError "Bad Request"), st_empty) /\
  fst (handle_collect_request iso_example adapt_example env_up (mkReq false None) st_empty)
    <> Ok (400%Z, BInvalidPayload) /\
  fst (handle_collect_request iso_example adapt_example env_up (mkReq true None) st_empty)
    <> Ok (400%Z, BInvalidPayload).
Proof. vm_compute. repeat split; discriminate. Qed.

Lemma C8_witness :
  handle_collect_request iso_example adapt_example env_up (mkReq true (Some (JObj []))) st_empty =
    (Ok (400%Z, BInvalidPayload), st_empty) /\
  exists code name,
    handle_collect_request iso_example adapt_example env_up (mkReq false None) st_empty =
      (Ok (code, BHttpError name), st_empty) /\ (code = 400%Z \/ code = 415%Z).
Proof.
  split.
  - apply (proj1 (C8_falsy_payload_400 iso_example adapt_example env_up
                    (mkReq true (Some (JObj []))) st_empty) (JObj []));
      reflexivity.
  - apply (proj2 (C8_falsy_payload_400 iso_example adapt_example env_up
                    (mkReq false None) st_empty)).
    left. reflexivity.
Defined.

Lemma C9_witness :
  accepted iso_example adapt_example env_up (JObj fs_anon1) = true /\
  accepted iso_example adapt_example env_up (JObj fs_anon2) = true /\
  event_id_of env_up fs_anon2 = event_id_of env_up fs_anon1 /\
  exists s2,
    handle_collect iso_example adapt_example env_up (JObj fs_anon2)
      (snd (handle_collect iso_example adapt_example env_up (JObj fs_anon1) st_empty)) =
      (Ok (200%Z, BStatusOk), s2) /\
    db_rows (st_db s2) =
    db_rows (st_db (snd (handle_collect iso_example adapt_example env_up (JObj fs_anon1)
                           st_empty))).
Proof.
  split; [vm_compute; reflexivity|]. split; [vm_compute; reflexivity|].
  destruct (C9_same_millisecond_dropped iso_example adapt_example
              (fun x => eq_refl) env_up env_up fs_anon1 fs_anon2 st_empty)
    as [_ [H2 H3]]; try (vm_compute; reflexivity).
  split; [exact H2|exact H3].
Defined.



(** * Further properties of the service *)


Lemma normalize_level_allowed (j : json) lvl :
  normalize_level j = Ok lvl -> In lvl ALLOWED_LEVELS.
Proof.
  unfold normalize_level. destruct (negb (truthy j)).
  - intros H. injection H as <-. simpl. tauto.
  - destruct j; try discriminate.
    destruct (in_levels (py_upper (py_strip s))) eqn:Hin; intros H; injection H as <-.
    + unfold in_levels in Hin. apply existsb_exists in Hin as [x [Hx Heq]].
      apply String.eqb_eq in Heq. subst. exact Hx.
    + simpl. tauto.
Qed.

(** X1: [normalize_level] is idempotent: feeding back a level it returned
    returns the same level. *)
Theorem X1_normalize_level_idempotent (j : json) lvl :
  normalize_level j = Ok lvl -> normalize_level (JStr lvl) = Ok lvl.
Proof.
  intros H. apply normalize_level_allowed in H.
  simpl in H. destruct H as [<-|[<-|[<-|[<-|[]]]]]; reflexivity.
Qed.

Section Extras.
Context (parse_iso : string -> option Tm) (adapt : json -> option sqlval).

(** X2: a truthy body that is not a JSON object (a list, a string, a
    number, true) makes [event.get] raise before the [try]: Flask answers
    500, nothing is stored, counted or forwarded, and the only effect is
    Flask's log line for the exception. *)
Theorem X2_non_object_body_500 e ev s :
  truthy ev = true -> (forall fs, ev <> JObj fs) ->
  handle_collect parse_iso adapt e ev s =
  (Ok (500%Z, BInternalServerError),
   mkSt (st_db s) (st_counter s) (st_trace s ++ [flask_exception_log "/collect" "POST"])%list).
Proof.
  intros Ht Hno. unfold handle_collect, collect. rewrite Ht. simpl.
  destruct ev as [| | | | |fs]; try reflexivity.
  exfalso. exact (Hno fs eq_refl).
Qed.

(** X3: a truthy level that is not a string ([5], [true], a list, a dict)
    makes [l.strip()] raise before the [try]: Flask answers 500, nothing
    is stored, counted or forwarded, and the only effect is Flask's log
    line for the exception. *)
Theorem X3_non_string_level_500 e fs s :
  fs <> [] ->
  truthy (py_dict_get fs "level" JNull) = true ->
  (forall str, py_dict_get fs "level" JNull <> JStr str) ->
  handle_collect parse_iso adapt e (JObj fs) s =
  (Ok (500%Z, BInternalServerError),
   mkSt (st_db s) (st_counter s) (st_trace s ++ [flask_exception_log "/collect" "POST"])%list).
Proof.
  intros Hne Ht Hns.
  assert (Hl : exists m, normalize_level (py_dict_get fs "level" JNull) = Err m).
  { unfold normalize_level. rewrite Ht. simpl.
    destruct (py_dict_get fs "level" JNull) as [| | |str| |]; try (eexists; reflexivity).
    exfalso. exact (Hns str eq_refl). }
  destruct Hl as [m Hl].
  destruct fs as [|f fs']; [congruence|].
  unfold handle_collect, collect, mbind, M_bind, lift, dict_get.
  cbn [truthy negb length Nat.eqb]. rewrite Hl. reflexivity.
Qed.

(** X4: a "type" that is a list (which psycopg2 adapts, so the insert
    goes through) only fails at [PERSISTORS.get(log_type)], after the
    commit and the counter increment: the row stays stored and counted, no
    forward is sent, the error is logged and the answer is
    500 {"error": "unhashable type: 'list'"}. *)
Theorem X4_unhashable_type_partial e fs s level p l :
  fs <> [] -> db_error e = None -> level_of fs = Ok level ->
  params_of parse_iso adapt e fs = Ok p ->
  type_of fs = JArr l ->
  handle_collect parse_iso adapt e (JObj fs) s =
  (Ok (500%Z, BError "unhashable type: 'list'"),
   mkSt (sql_insert (st_db s) p)
     (<[key_of level fs := S (default 0 (st_counter s !! key_of level fs))]> (st_counter s))
     (st_trace s ++ [DbCommit p; CounterInc (key_of level fs);
                     LogLine "ERROR" ("Processing error: " +:+ "unhashable type: 'list'")])%list).
Proof.
  intros Hne Hdb Hl Hp Htype.
  rewrite (params_of_obj parse_iso adapt e fs level Hl) in Hp.
  assert (Ht : persistor_get (type_of fs) = Err "unhashable type: 'list'")
    by (rewrite Htype; reflexivity).
  apply handle_collect_ok.
  destruct fs as [|f fs']; [congruence|].
  unfold key_of.
  unfold level_of, event_id_of, message_of, client_of, type_of, timestamp_of in *.
  unfold collect, mbind, M_bind, lift, mret, M_ret, dict_get, try_catch.
  cbn [truthy negb length Nat.eqb]. rewrite Hl.
  unfold save_to_postgres. rewrite Hdb, Hp. unfold counter_inc. cbn. rewrite Ht.
  cbn. rewrite <- !app_assoc. reflexivity.
Qed.

Lemma adapt_params_inv eid level msg cl t ts p :
  adapt_params adapt eid level msg cl t ts = Ok p ->
  adapt eid = Some (p_event_id p) /\ adapt (JStr level) = Some (p_level p) /\
  adapt msg = Some (p_message p) /\ adapt cl = Some (p_client_name p) /\
  adapt t = Some (p_type p) /\ p_timestamp p = ts.
Proof.
  unfold adapt_params. intros H. repeat (case_match; try discriminate).
  injection H as <-. simpl. repeat split; congruence.
Qed.


(** X6: re-sending an accepted request with an explicit (truthy,
    non-NULL) event_id, at any later time, adds no row: the second insert
    hits the conflict, while the counter series is counted twice. *)
Theorem X6_replay_no_new_row e1 e2 fs s p1 :
  truthy (py_dict_get fs "event_id" JNull) = true ->
  accepted parse_iso adapt e1 (JObj fs) = true ->
  accepted parse_iso adapt e2 (JObj fs) = true ->
  params_of parse_iso adapt e1 fs = Ok p1 ->
  p_event_id p1 <> None ->
  forall level, level_of fs = Ok level ->
  let s1 := snd (handle_collect parse_iso adapt e1 (JObj fs) s) in
  let s2 := snd (handle_collect parse_iso adapt e2 (JObj fs) s1) in
  db_rows (st_db s2) = db_rows (st_db s1) /\
  st_counter s2 !! key_of level fs = Some (S (S (default 0 (st_counter s !! key_of level fs)))).
Proof.
  intros Htr Ha1 Ha2 Hp1 Hnn level Hl s1 s2.
  destruct (accepted_inv parse_iso adapt e1 _ Ha1)
    as (fs1 & l1 & q1 & u1 & Heq1 & Hne & Hdb1 & Hl1 & Hq1 & Hap1 & Ht1).
  destruct (accepted_inv parse_iso adapt e2 _ Ha2)
    as (fs2 & l2 & q2 & u2 & Heq2 & _ & Hdb2 & Hl2 & _ & Hap2 & Ht2).
  injection Heq1 as <-. injection Heq2 as <-.
  rewrite Hl in Hl1, Hl2. injection Hl1 as <-. injection Hl2 as <-.
  rewrite Hp1 in Hq1. injection Hq1 as <-.
  assert (Hid : p_event_id q2 = p_event_id p1).
  { destruct (adapt_params_inv _ _ _ _ _ _ _ Hap1) as [A1 _].
    destruct (adapt_params_inv _ _ _ _ _ _ _ Hap2) as [A2 _].
    unfold event_id_of in A1, A2. rewrite Htr in A1, A2. congruence. }
  unfold s2, s1.
  rewrite (handle_collect_ok _ _ _ _ _ _ _
             (collect_accepted parse_iso adapt e1 fs s level p1 u1 Hne Hdb1 Hl Hap1 Ht1)).
  simpl.
  rewrite (handle_collect_ok _ _ _ _ _ _ _
             (collect_accepted parse_iso adapt e2 fs _ level q2 u2 Hne Hdb2 Hl Hap2 Ht2)).
  simpl. split.
  - destruct (p_event_id p1) as [k|] eqn:Hk; [|congruence].
    unfold sql_insert at 1. rewrite Hid.
    rewrite (sql_insert_has_key (st_db s) p1 k Hk). reflexivity.
  - rewrite !lookup_insert_eq. reflexivity.
Qed.

Lemma in_levels_spec l : in_levels l = true <-> In l ALLOWED_LEVELS.
Proof.
  unfold in_levels. rewrite existsb_exists. split.
  - intros [x [Hx Heq]]. apply String.eqb_eq in Heq. subst. exact Hx.
  - intros H. exists l. split; [exact H|apply String.eqb_refl].
Qed.

Lemma handle_collect_fst_ok e ev s :
  exists r, fst (handle_collect parse_iso adapt e ev s) = Ok r.
Proof.
  unfold handle_collect. destruct (collect parse_iso adapt e ev s) as [[r|m] s']; simpl; eauto.
Qed.

Lemma run_requests_cons_snd e ev rest s :
  snd (run_requests parse_iso adapt ((e, ev) :: rest) s) =
  snd (run_requests parse_iso adapt rest (snd (handle_collect parse_iso adapt e ev s))).
Proof.
  simpl. unfold mbind, M_bind, mret, M_ret.
  destruct (handle_collect_fst_ok e ev s) as [r Hr].
  destruct (handle_collect parse_iso adapt e ev s) as [x s1]. simpl in Hr. subst x.
  simpl. destruct (run_requests parse_iso adapt rest s1) as [[]]; reflexivity.
Qed.

Section Adapt_str.
(** psycopg2 sends a Python str as that text. *)
Hypothesis adapt_str : forall x, adapt (JStr x) = Some (Some x).

Lemma handle_collect_levels_ok e ev s :
  levels_ok (st_db s) = true ->
  levels_ok (st_db (snd (handle_collect parse_iso adapt e ev s))) = true.
Proof.
  intros Hs. rewrite handle_collect_db.
  destruct (collect_db parse_iso adapt e ev s)
    as (new & _ & [[-> _] | (fs & p & -> & Hp & -> & _)]); [exact Hs|].
  unfold params_of in Hp. destruct (level_of fs) as [level|] eqn:Hl; [|discriminate].
  destruct (adapt_params_inv _ _ _ _ _ _ _ Hp) as (_ & H2 & _).
  rewrite adapt_str in H2. injection H2 as H2.
  unfold level_of in Hl. apply normalize_level_allowed, in_levels_spec in Hl.
  unfold levels_ok, sql_insert in *.
  destruct (existsb _ _); simpl; [exact Hs|].
  rewrite forallb_app, Hs. simpl. rewrite <- H2. simpl. rewrite Hl. reflexivity.
Qed.

Lemma run_requests_levels_ok reqs s :
  levels_ok (st_db s) = true ->
  levels_ok (st_db (snd (run_requests parse_iso adapt reqs s))) = true.
Proof.
  revert s. induction reqs as [|[e ev] rest IH]; intros s Hs; [exact Hs|].
  rewrite run_requests_cons_snd. apply IH, handle_collect_levels_ok, Hs.
Qed.

(** X7: every row [/collect] writes has a level among [ALLOWED_LEVELS]
    (never NULL, never anything else): starting from such a table, any
    sequence of requests, valid or not, keeps it so. *)
Theorem X7_rows_have_allowed_levels reqs s :
  levels_ok (st_db s) = true ->
  levels_ok (st_db (snd (run_requests parse_iso adapt reqs s))) = true.
Proof. apply run_requests_levels_ok. Qed.

End Adapt_str.

Lemma level_counts_lookup rows lv :
  level_counts rows !! lv =
  match count_level rows lv with O => None | n => Some n end.
Proof.
  induction rows as [|r rows IH]; [reflexivity|].
  unfold count_level in *. simpl.
  destruct (decide (r_level r = lv)) as [<-|Hne].
  - rewrite lookup_insert_eq, bool_decide_true by reflexivity. simpl.
    rewrite IH. destruct (length _); reflexivity.
  - rewrite lookup_insert_ne by congruence. rewrite bool_decide_false by congruence.
    exact IH.
Qed.

Lemma count_level_allowed d lv :
  levels_ok d = true -> count_level (db_rows d) lv <> O -> level_allowed lv = true.
Proof.
  unfold levels_ok, count_level. intros Hd Hc.
  destruct (List.filter _ (db_rows d)) as [|r rs] eqn:E; [simpl in Hc; congruence|].
  assert (Hr : In r (List.filter (fun r => bool_decide (r_level r = lv)) (db_rows d)))
    by (rewrite E; left; reflexivity).
  apply filter_In in Hr as [Hin Heq]. apply bool_decide_eq_true in Heq. subst lv.
  rewrite forallb_forall in Hd. apply Hd, Hin.
Qed.

(** X9: after any sequence of [/collect] requests on an empty table,
    every key of the [/analyze] answer is one of [ALLOWED_LEVELS]. *)
Theorem X9_analyze_keys_allowed (adapt_str : forall x, adapt (JStr x) = Some (Some x))
    reqs e m lv n :
  db_error e = None ->
  fst (analyze e (snd (run_requests parse_iso adapt reqs (mkSt (mkDb [] 0) ∅ [])))) = Ok m ->
  m !! lv = Some n ->
  exists l, lv = Some l /\ In l ALLOWED_LEVELS.
Proof.
  intros Hdb Ha Hm.
  pose proof (run_requests_levels_ok adapt_str reqs (mkSt (mkDb [] 0) ∅ []) eq_refl) as Hok.
  unfold analyze in Ha. rewrite Hdb in Ha. simpl in Ha. injection Ha as <-.
  rewrite level_counts_lookup in Hm.
  destruct (count_level _ lv) eqn:Hc; [discriminate|].
  pose proof (count_level_allowed _ lv Hok ltac:(congruence)) as Hl.
  destruct lv as [l|]; [|discriminate]. exists l. split; [reflexivity|].
  apply in_levels_spec, Hl.
Qed.

Lemma ts_ge_total : Total ts_ge.
Proof.
  intros a b. unfold ts_ge, ts_geb.
  destruct (r_timestamp a) as [x|], (r_timestamp b) as [y|]; auto.
  destruct (Z.leb y x) eqn:E; [left; reflexivity|right].
  apply Z.leb_le. apply Z.leb_gt in E. lia.
Qed.

Lemma ts_ge_trans : Transitive ts_ge.
Proof.
  intros a b c. unfold ts_ge, ts_geb.
  destruct (r_timestamp a) as [x|], (r_timestamp b) as [y|], (r_timestamp c) as [z|];
    try discriminate; auto.
  rewrite !Z.leb_le. lia.
Qed.

Lemma views_ok l :
  (forall r, In r l -> r_timestamp r <> None) ->
  exists vs, views l = Ok vs /\ length vs = length l.
Proof.
  induction l as [|r l IH]; intros H; [exists []; auto|].
  destruct IH as [vs [Hvs Hlen]]; [intros r' Hr'; apply H; right; exact Hr'|].
  simpl. unfold view_of. destruct (r_timestamp r) as [t|] eqn:Ht.
  - rewrite Hvs. eexists. split; [reflexivity|]. simpl. lia.
  - exfalso. apply (H r); [left; reflexivity|exact Ht].
Qed.

Lemma get_logs_valid order_rows e lim s n :
  py_int (match lim with Some a => a | None => "500" end) = Some n ->
  (0 <= n <= BIGINT_MAX)%Z -> db_error e = None ->
  get_logs order_rows e lim s =
  (views (firstn (Z.to_nat n) (order_rows (db_rows (st_db s)))), s).
Proof.
  intros Hn Hb Hdb. unfold get_logs. rewrite Hn, Hdb.
  destruct (Z.ltb_spec BIGINT_MAX n); [lia|]. destruct (Z.ltb_spec n 0); [lia|].
  reflexivity.
Qed.

(** X10: with a valid [limit] (given, or the default ["500"]) between 0
    and Postgres' bigint maximum, on a table without NULL timestamps,
    [/logs] returns the [min limit (number of rows)] newest rows, newest
    first: the rows returned and the rows left out make up the whole
    table, and no row left out is newer than a row returned. *)
Theorem X10_get_logs_newest_first (order_rows : list Row -> list Row) e lim s n :
  (forall rows, Permutation (order_rows rows) rows /\ Sorted ts_ge (order_rows rows)) ->
  py_int (match lim with Some a => a | None => "500" end) = Some n ->
  (0 <= n <= BIGINT_MAX)%Z ->
  db_error e = None ->
  (forall r, In r (db_rows (st_db s)) -> r_timestamp r <> None) ->
  exists out rest vs,
    get_logs order_rows e lim s = (Ok vs, s) /\
    views out = Ok vs /\
    Permutation (out ++ rest) (db_rows (st_db s)) /\
    length vs = Nat.min (Z.to_nat n) (length (db_rows (st_db s))) /\
    Sorted ts_ge out /\
    (forall a b, In a out -> In b rest ->
       exists ta tb, r_timestamp a = Some ta /\ r_timestamp b = Some tb /\ (tb <= ta)%Z).
Proof.
  intros Hord Hn Hb Hdb Hnn.
  set (rows := db_rows (st_db s)).
  destruct (Hord rows) as [Hperm Hsort].
  pose proof ts_ge_trans as Htr.
  apply Sorted_StronglySorted in Hsort; [|exact Htr].
  set (out := firstn (Z.to_nat n) (order_rows rows)).
  set (rest := skipn (Z.to_nat n) (order_rows rows)).
  assert (Hsplit : (out ++ rest)%list = order_rows rows) by apply firstn_skipn.
  assert (Hin : forall r, In r (out ++ rest) -> In r rows).
  { intros r Hr. rewrite Hsplit in Hr. apply (Permutation_in _ Hperm), Hr. }
  destruct (views_ok out) as [vs [Hvs Hlen]].
  { intros r Hr. apply Hnn, Hin, in_or_app. left. exact Hr. }
  exists out, rest, vs.
  split; [rewrite (get_logs_valid order_rows e lim s n Hn Hb Hdb); fold rows; fold out;
          rewrite Hvs; reflexivity|].
  split; [exact Hvs|].
  split; [rewrite Hsplit; exact Hperm|].
  split; [rewrite Hlen; unfold out; rewrite length_firstn, (Permutation_length Hperm);
          reflexivity|].
  rewrite <- Hsplit in Hsort.
  split; [apply StronglySorted_Sorted, (StronglySorted_app_1_l _ _ rest), Hsort|].
  intros a b Ha Hrb.
  pose proof (StronglySorted_app_1_elem_of ts_ge out rest a b Hsort
                (proj2 (list_elem_of_In _ _) Ha) (proj2 (list_elem_of_In _ _) Hrb)) as Hab.
  assert (Hta : r_timestamp a <> None) by (apply Hnn, Hin, in_or_app; left; exact Ha).
  assert (Htb : r_timestamp b <> None) by (apply Hnn, Hin, in_or_app; right; exact Hrb).
  unfold ts_ge, ts_geb in Hab.
  destruct (r_timestamp a) as [ta|]; [|congruence].
  destruct (r_timestamp b) as [tb|]; [|congruence].
  exists ta, tb. apply Z.leb_le in Hab. auto.
Qed.

(** X5: a NULL timestamp in the table makes [/logs] with a valid
    positive limit fail: [ORDER BY timestamp DESC] puts NULLs first, and
    [None.isoformat()] raises, so Flask logs the exception and answers 500. *)
Theorem X5_null_timestamp_logs_500 (order_rows : list Row -> list Row) e lim s n r :
  (forall rows, Permutation (order_rows rows) rows /\ Sorted ts_ge (order_rows rows)) ->
  py_int (match lim with Some a => a | None => "500" end) = Some n ->
  (1 <= n <= BIGINT_MAX)%Z ->
  In r (db_rows (st_db s)) -> r_timestamp r = None ->
  handle_get_logs order_rows e lim s =
  (Ok (500%Z, None),
   mkSt (st_db s) (st_counter s) (st_trace s ++ [flask_exception_log "/logs" "GET"])%list).
Proof.
  intros Hord Hn Hb Hr Hnull.
  unfold handle_get_logs.
  destruct (db_error e) as [m|] eqn:Hdb.
  { unfold get_logs. rewrite Hn, Hdb. reflexivity. }
  rewrite (get_logs_valid order_rows e lim s n Hn ltac:(lia) Hdb).
  destruct (Hord (db_rows (st_db s))) as [Hperm Hsort].
  apply Sorted_StronglySorted in Hsort; [|exact ts_ge_trans].
  assert (Hin : In r (order_rows (db_rows (st_db s))))
    by (apply (Permutation_in _ (Permutation_sym Hperm)), Hr).
  destruct (order_rows (db_rows (st_db s))) as [|h t] eqn:E; [destruct Hin|].
  assert (Hh : r_timestamp h = None).
  { destruct Hin as [<-|Hin]; [exact Hnull|].
    apply StronglySorted_inv in Hsort as [_ Hall].
    rewrite Forall_forall in Hall. specialize (Hall r (proj2 (list_elem_of_In _ _) Hin)).
    unfold ts_ge, ts_geb in Hall. rewrite Hnull in Hall.
    destruct (r_timestamp h); [discriminate|reflexivity]. }
  destruct (Z.to_nat n) as [|k] eqn:Hk; [lia|].
  simpl. unfold view_of at 1. rewrite Hh. reflexivity.
Qed.

(** X11: a [limit] that [int()] rejects, a negative one, or one beyond
    Postgres' bigint range makes [/logs] answer 500 (whatever the database
    does): the table and the counter are unchanged and Flask logs the
    exception. *)
Theorem X11_bad_limit_500 (order_rows : list Row -> list Row) e lim s :
  (py_int (match lim with Some a => a | None => "500" end) = None \/
   exists n, py_int (match lim with Some a => a | None => "500" end) = Some n /\
             ((n < 0)%Z \/ (BIGINT_MAX < n)%Z)) ->
  handle_get_logs order_rows e lim s =
  (Ok (500%Z, None),
   mkSt (st_db s) (st_counter s) (st_trace s ++ [flask_exception_log "/logs" "GET"])%list).
Proof.
  intros H. unfold handle_get_logs, get_logs.
  destruct H as [H|(n & H & Hn)]; rewrite H; [reflexivity|].
  destruct (db_error e); [reflexivity|].
  destruct (Z.ltb_spec BIGINT_MAX n); [reflexivity|].
  destruct (Z.ltb_spec n 0); [reflexivity|lia].
Qed.

Lemma boot_loop_no_run i fuel conn tbl : ~ In AppRun (fst (boot_loop i fuel conn tbl)).
Proof.
  revert i. induction fuel as [|f IH]; intros i; simpl; [tauto|].
  destruct (init_db tbl (conn i)) as [t|m]; simpl.
  - intros [H|[]]; discriminate.
  - specialize (IH (S i)). destruct (boot_loop (S i) f conn tbl) as [evs t].
    simpl in *. intros [H|[H|[H|H]]]; try discriminate. contradiction.
Qed.

Lemma boot_loop_first_ok i fuel conn tbl k :
  (k < fuel)%nat ->
  (forall j, (j < k)%nat -> conn (i + j)%nat <> None) ->
  conn (i + k)%nat = None ->
  List.filter is_init_attempt (fst (boot_loop i fuel conn tbl)) = map InitAttempt (seq i (S k)) /\
  length (List.filter is_sleep (fst (boot_loop i fuel conn tbl))) = k /\
  snd (boot_loop i fuel conn tbl) = Some (match tbl with Some d => d | None => mkDb [] 0 end).
Proof.
  revert i fuel. induction k as [|k IH]; intros i fuel Hk Hpre Hok.
  - destruct fuel as [|f]; [lia|]. rewrite Nat.add_0_r in Hok.
    simpl. rewrite Hok. simpl. auto.
  - destruct fuel as [|f]; [lia|].
    assert (Hi : conn i <> None).
    { specialize (Hpre O). rewrite Nat.add_0_r in Hpre. apply Hpre. lia. }
    destruct (IH (S i) f) as (A & B & C).
    + lia.
    + intros j Hj. replace (S i + j)%nat with (i + S j)%nat by lia. apply Hpre. lia.
    + replace (S i + k)%nat with (i + S k)%nat by lia. exact Hok.
    + simpl. destruct (conn i) as [m|]; [|congruence]. simpl.
      destruct (boot_loop (S i) f conn tbl) as [evs t]. simpl in *.
      rewrite A. auto.
Qed.

Lemma boot_loop_all_fail i fuel conn tbl :
  (forall j, (j < fuel)%nat -> conn (i + j)%nat <> None) ->
  List.filter is_init_attempt (fst (boot_loop i fuel conn tbl)) = map InitAttempt (seq i fuel) /\
  length (List.filter is_sleep (fst (boot_loop i fuel conn tbl))) = fuel /\
  snd (boot_loop i fuel conn tbl) = tbl.
Proof.
  revert i. induction fuel as [|f IH]; intros i Hpre; [simpl; auto|].
  assert (Hi : conn i <> None).
  { specialize (Hpre O). rewrite Nat.add_0_r in Hpre. apply Hpre. lia. }
  destruct (IH (S i)) as (A & B & C).
  { intros j Hj. replace (S i + j)%nat with (i + S j)%nat by lia. apply Hpre. lia. }
  simpl. destruct (conn i) as [m|]; [|congruence]. simpl.
  destruct (boot_loop (S i) f conn tbl) as [evs t]. simpl in *.
  rewrite A. auto.
Qed.

(** X12: if the first [k+1] connection attempts of startup fail but the
    last of them succeeds within the 10 tries, [init_db] is tried exactly
    [k+1] times (attempts 0..k), the loop sleeps [k] times, the table
    exists afterwards (an existing one is kept as it is) and the server is
    started once, at the end. *)
Theorem X12_startup_retries conn tbl k :
  (k < 10)%nat ->
  (forall j, (j < k)%nat -> conn j <> None) ->
  conn k = None ->
  List.filter is_init_attempt (fst (main conn tbl)) = map InitAttempt (seq 0 (S k)) /\
  length (List.filter is_sleep (fst (main conn tbl))) = k /\
  snd (main conn tbl) = Some (match tbl with Some d => d | None => mkDb [] 0 end) /\
  exists evs, fst (main conn tbl) = (evs ++ [AppRun])%list /\ ~ In AppRun evs.
Proof.
  intros Hk Hpre Hok.
  destruct (boot_loop_first_ok 0 10 conn tbl k Hk Hpre Hok) as (A & B & C).
  pose proof (boot_loop_no_run 0 10 conn tbl) as D.
  unfold main. destruct (boot_loop 0 10 conn tbl) as [evs t]. simpl in *.
  rewrite !List.filter_app, length_app. simpl. rewrite A, app_nil_r.
  split; [reflexivity|]. split; [lia|]. split; [exact C|]. eauto.
Qed.

(** X13: if all 10 connection attempts fail, the loop gives up after 10
    tries and 10 sleeps, no table is created, and the server is started
    anyway. *)
Theorem X13_startup_gives_up conn tbl :
  (forall j, (j < 10)%nat -> conn j <> None) ->
  List.filter is_init_attempt (fst (main conn tbl)) = map InitAttempt (seq 0 10) /\
  length (List.filter is_sleep (fst (main conn tbl))) = 10%nat /\
  snd (main conn tbl) = tbl /\
  exists evs, fst (main conn tbl) = (evs ++ [AppRun])%list /\ ~ In AppRun evs.
Proof.
  intros Hpre.
  destruct (boot_loop_all_fail 0 10 conn tbl Hpre) as (A & B & C).
  pose proof (boot_loop_no_run 0 10 conn tbl) as D.
  unfold main. destruct (boot_loop 0 10 conn tbl) as [evs t]. simpl in *.
  rewrite !List.filter_app, length_app. simpl. rewrite A, app_nil_r.
  split; [reflexivity|]. split; [lia|]. split; [exact C|]. eauto.
Qed.

(** X14: an accepted event without a "type" key is handled as type
    "application": it is posted to the application persistor and counted
    under the label type "application". *)
Theorem X14_missing_type_application e fs s level :
  accepted parse_iso adapt e (JObj fs) = true ->
  assoc_last fs "type" = None ->
  level_of fs = Ok level ->
  let s' := snd (handle_collect parse_iso adapt e (JObj fs) s) in
  In (PersistorPost "http://persistor-application:6000/store" (JObj fs)) (st_trace s') /\
  st_counter s' !! (level, py_str (client_of fs), "application") =
    Some (S (default 0 (st_counter s !! (level, py_str (client_of fs), "application")))).
Proof.
  intros Ha Hnone Hl s'.
  destruct (accepted_inv parse_iso adapt e _ Ha)
    as (fs' & l1 & p & purl & Heq & Hne & Hdb & Hl1 & _ & Hap & Ht).
  injection Heq as <-. rewrite Hl in Hl1. injection Hl1 as <-.
  assert (Hty : type_of fs = JStr "application")
    by (unfold type_of, py_dict_get; rewrite Hnone; reflexivity).
  unfold s'.
  rewrite (handle_collect_ok _ _ _ _ _ _ _
             (collect_accepted parse_iso adapt e fs s level p purl Hne Hdb Hl Hap Ht)).
  simpl. unfold key_of. rewrite Hty. simpl. split.
  - apply in_or_app. right. simpl. right. right. left. reflexivity.
  - apply lookup_insert_eq.
Qed.

(** X15: an accepted event whose type is not one of the four persistor
    categories (an unknown string, a number, a boolean, null) is still
    stored, counted and sent to Splunk with a 200 answer, but is posted to
    no persistor. *)
Theorem X15_unknown_type_no_persistor e fs s :
  accepted parse_iso adapt e (JObj fs) = true ->
  is_category (type_of fs) = false ->
  exists new,
    handle_collect parse_iso adapt e (JObj fs) s =
      (Ok (200%Z, BStatusOk),
       mkSt (st_db (snd (handle_collect parse_iso adapt e (JObj fs) s)))
            (st_counter (snd (handle_collect parse_iso adapt e (JObj fs) s)))
            (st_trace s ++ new)) /\
    (exists p, In (DbCommit p) new) /\
    (exists pl, In (SplunkPost SPLUNK_HEC pl) new) /\
    forall f, In f new -> is_persistor_post f = false.
Proof.
  intros Ha Hcat.
  destruct (accepted_inv parse_iso adapt e _ Ha)
    as (fs' & level & p & purl & Heq & Hne & Hdb & Hl & _ & Hap & Ht).
  injection Heq as <-.
  rewrite (handle_collect_ok _ _ _ _ _ _ _
             (collect_accepted parse_iso adapt e fs s level p purl Hne Hdb Hl Hap Ht)).
  rewrite Hcat. simpl.
  eexists. split; [reflexivity|]. split; [eexists; left; reflexivity|].
  split; [eexists; right; right; left; reflexivity|].
  intros f Hf. simpl in Hf.
  destruct Hf as [<-|[<-|[<-|Hf]]]; try reflexivity.
  destruct (splunk_answer e) as [c t|m]; simpl in Hf;
    [destruct (_ || _); simpl in Hf|]; 
    repeat (destruct Hf as [<-|Hf]; [reflexivity|]); contradiction.
Qed.

Lemma level_counts_is_Some rows lv :
  is_Some (level_counts rows !! lv) <-> exists r, In r rows /\ r_level r = lv.
Proof.
  rewrite level_counts_lookup. unfold count_level. split.
  - intros Hs.
    destruct (List.filter (fun r => bool_decide (r_level r = lv)) rows) as [|r rs] eqn:E.
    { simpl in Hs. destruct Hs as [x Hx]. discriminate. }
    assert (Hr : In r (List.filter (fun r => bool_decide (r_level r = lv)) rows))
      by (rewrite E; left; reflexivity).
    apply filter_In in Hr as [H1 H2]. apply bool_decide_eq_true in H2. eauto.
  - intros (r & Hr & Hl).
    assert (Hf : In r (List.filter (fun r => bool_decide (r_level r = lv)) rows))
      by (apply filter_In; split; [exact Hr|apply bool_decide_eq_true; exact Hl]).
    destruct (List.filter (fun r => bool_decide (r_level r = lv)) rows) as [|r' rs];
      [destruct Hf|].
    simpl. eexists. reflexivity.
Qed.

Lemma keys_sortable_false m :
  keys_sortable m = false <-> is_Some (m !! None) /\ exists l, is_Some (m !! Some l).
Proof.
  unfold keys_sortable. rewrite negb_false_iff, andb_true_iff, bool_decide_eq_true,
    existsb_exists. split.
  - intros [H1 [[k x] [Hin Hk]]]. split; [exact H1|].
    destruct k as [l|]; [|discriminate]. exists l.
    apply list_elem_of_In, elem_of_map_to_list in Hin. rewrite Hin. eexists. reflexivity.
  - intros [H1 [l [x Hx]]]. split; [exact H1|]. exists (Some l, x). split; [|reflexivity].
    apply list_elem_of_In, elem_of_map_to_list, Hx.
Qed.

(** X8: with the database up, [/analyze] fails with 500 exactly when
    the table holds both a row with a NULL level and a row with a
    non-NULL one (Flask cannot sort the keys [None] and a [str]); in
    every other case it answers 200 with the per-level counts. *)
Theorem X8_analyze_null_level_500 e s :
  db_error e = None ->
  (fst (handle_analyze e s) = Ok (500%Z, None) <->
   (exists r, In r (db_rows (st_db s)) /\ r_level r = None) /\
   (exists r, In r (db_rows (st_db s)) /\ r_level r <> None)) /\
  (fst (handle_analyze e s) <> Ok (500%Z, None) ->
   fst (handle_analyze e s) = Ok (200%Z, Some (level_counts (db_rows (st_db s))))).
Proof.
  intros Hdb. unfold handle_analyze, analyze. rewrite Hdb.
  destruct (keys_sortable (level_counts (db_rows (st_db s)))) eqn:Hk; simpl.
  - split; [|intros _; reflexivity]. split; [intros H; discriminate|].
    intros [[r1 [H1 H1']] [r2 [H2 H2']]]. exfalso.
    assert (Hf : keys_sortable (level_counts (db_rows (st_db s))) = false).
    { apply keys_sortable_false. split.
      - apply level_counts_is_Some. eauto.
      - destruct (r_level r2) as [l|] eqn:E; [|congruence].
        exists l. apply level_counts_is_Some. eauto. }
    congruence.
  - split; [|intros H; congruence]. split; [intros _|intros _; reflexivity].
    apply keys_sortable_false in Hk as [Hn [l Hl]].
    apply level_counts_is_Some in Hn, Hl. destruct Hl as (r & Hr & Hrl).
    split; [exact Hn|]. exists r. rewrite Hrl. split; [exact Hr|discriminate].
Qed.

(** X16: on a table whose rows all have allowed levels (in particular,
    after any sequence of [/collect] requests on an empty table), when the
    database is up [/analyze] answers 200 with the per-level counts. *)
Theorem X16_analyze_200_after_collect (adapt_str : forall x, adapt (JStr x) = Some (Some x))
    reqs s e :
  levels_ok (st_db s) = true ->
  db_error e = None ->
  let s' := snd (run_requests parse_iso adapt reqs s) in
  handle_analyze e s' = (Ok (200%Z, Some (level_counts (db_rows (st_db s')))), s').
Proof.
  intros Hs Hdb s'.
  pose proof (run_requests_levels_ok adapt_str reqs s Hs) as Hok. fold s' in Hok.
  unfold handle_analyze, analyze. rewrite Hdb.
  destruct (keys_sortable (level_counts (db_rows (st_db s')))) eqn:Hk; [reflexivity|].
  exfalso. apply keys_sortable_false in Hk as [Hn _].
  apply level_counts_is_Some in Hn as (r & Hr & Hl).
  unfold levels_ok in Hok. rewrite forallb_forall in Hok.
  specialize (Hok r Hr). rewrite Hl in Hok. discriminate.
Qed.

Lemma handle_collect_timestamps_ok e ev s :
  timestamps_ok (st_db s) = true ->
  timestamps_ok (st_db (snd (handle_collect parse_iso adapt e ev s))) = true.
Proof.
  intros Hs. rewrite handle_collect_db.
  destruct (collect_db parse_iso adapt e ev s)
    as (new & _ & [[-> _] | (fs & p & -> & Hp & -> & _)]); [exact Hs|].
  unfold timestamps_ok, sql_insert in *.
  destruct (existsb _ _); simpl; [exact Hs|].
  rewrite forallb_app, Hs. reflexivity.
Qed.

Lemma run_requests_timestamps_ok reqs s :
  timestamps_ok (st_db s) = true ->
  timestamps_ok (st_db (snd (run_requests parse_iso adapt reqs s))) = true.
Proof.
  revert s. induction reqs as [|[e ev] rest IH]; intros s Hs; [exact Hs|].
  rewrite run_requests_cons_snd. apply IH, handle_collect_timestamps_ok, Hs.
Qed.

(** X17: [/collect] never stores a NULL timestamp, so after any sequence
    of requests on a table without NULL timestamps (an empty one, say),
    [/logs] with a valid limit between 0 and the bigint maximum and the
    database up answers 200 with [min limit (number of rows)] rows. *)
Theorem X17_logs_200_after_collect (order_rows : list Row -> list Row) reqs s e lim n :
  (forall rows, Permutation (order_rows rows) rows) ->
  timestamps_ok (st_db s) = true ->
  py_int (match lim with Some a => a | None => "500" end) = Some n ->
  (0 <= n <= BIGINT_MAX)%Z ->
  db_error e = None ->
  let s' := snd (run_requests parse_iso adapt reqs s) in
  exists vs, handle_get_logs order_rows e lim s' = (Ok (200%Z, Some vs), s') /\
    length vs = Nat.min (Z.to_nat n) (length (db_rows (st_db s'))).
Proof.
  intros Hperm Hs Hn Hb Hdb s'.
  pose proof (run_requests_timestamps_ok reqs s Hs) as Hok. fold s' in Hok.
  unfold timestamps_ok in Hok. rewrite forallb_forall in Hok.
  destruct (views_ok (firstn (Z.to_nat n) (order_rows (db_rows (st_db s'))))) as [vs [Hvs Hlen]].
  { intros r Hr.
    assert (Hr' : In r (order_rows (db_rows (st_db s'))))
      by (rewrite <- (firstn_skipn (Z.to_nat n) (order_rows _)); apply in_or_app; left; exact Hr).
    apply (Permutation_in _ (Hperm _)) in Hr'. specialize (Hok r Hr').
    destruct (r_timestamp r); [discriminate|discriminate]. }
  exists vs. unfold handle_get_logs.
  rewrite (get_logs_valid order_rows e lim s' n Hn Hb Hdb), Hvs. split; [reflexivity|].
  rewrite Hlen, length_firstn, (Permutation_length (Hperm _)). reflexivity.
Qed.

End Extras.






(* ------------------------------------------------------------------ *)
(** ** Instances of the further properties *)

Lemma X1_witness :
  normalize_level (JStr " error ") = Ok "ERROR" /\ normalize_level (JStr "ERROR") = Ok "ERROR".
Proof.
  assert (H : normalize_level (JStr " error ") = Ok "ERROR") by (vm_compute; reflexivity).
  split; [exact H|]. exact (X1_normalize_level_idempotent (JStr " error ") "ERROR" H).
Defined.

Lemma X2_witness :
  handle_collect iso_example adapt_example env_up (JArr [JNum 1]) st_empty =
    (Ok (500%Z, BInternalServerError),
     mkSt (st_db st_empty) (st_counter st_empty)
       (st_trace st_empty ++ [flask_exception_log "/collect" "POST"])%list).
Proof.
  apply X2_non_object_body_500; [reflexivity|intros fs; discriminate].
Defined.

Lemma X3_witness :
  handle_collect iso_example adapt_example env_up (JObj [("level", JNum 5)]) st_empty =
    (Ok (500%Z, BInternalServerError),
     mkSt (st_db st_empty) (st_counter st_empty)
       (st_trace st_empty ++ [flask_exception_log "/collect" "POST"])%list).
Proof.
  apply X3_non_string_level_500; [discriminate|reflexivity|].
  intros str H. vm_compute in H. discriminate.
Defined.

Lemma X4_witness :
  let fs := [("event_id", JStr "e2"); ("level", JStr "info"); ("type", JArr [])] in
  let p := mkParams (Some "e2") (Some "INFO") (Some "") (Some "unknown") (Some "{}")
             1700000000000000%Z in
  handle_collect iso_example adapt_example env_up (JObj fs) st_restarted =
  (Ok (500%Z, BError "unhashable type: 'list'"),
   mkSt (sql_insert (st_db st_restarted) p)
     (<[key_of "INFO" fs := S (default 0 (st_counter st_restarted !! key_of "INFO" fs))]>
        (st_counter st_restarted))
     (st_trace st_restarted ++ [DbCommit p; CounterInc (key_of "INFO" fs);
        LogLine "ERROR" ("Processing error: " +:+ "unhashable type: 'list'")])%list).
Proof.
  intros fs p.
  apply (X4_unhashable_type_partial iso_example adapt_example env_up fs st_restarted
           "INFO" p []);
    [discriminate|reflexivity|vm_compute; reflexivity|vm_compute; reflexivity|reflexivity].
Defined.

Lemma order_example_spec rows :
  Permutation (order_example rows) rows /\ Sorted ts_ge (order_example rows).
Proof.
  split; [apply merge_sort_Permutation|].
  exact (@Sorted_merge_sort Row ts_ge ts_ge_dec ts_ge_total rows).
Qed.

Lemma X5_witness :
  handle_get_logs order_example env_up (Some "10") st_foreign =
  (Ok (500%Z, None),
   mkSt (st_db st_foreign) (st_counter st_foreign)
     (st_trace st_foreign ++ [flask_exception_log "/logs" "GET"])%list).
Proof.
  apply (X5_null_timestamp_logs_500 order_example env_up (Some "10") st_foreign 10%Z
           (mkRow 2 (Some "ext") None (Some "imported") None None None) order_example_spec).
  - vm_compute. reflexivity.
  - vm_compute. split; discriminate.
  - right. left. reflexivity.
  - reflexivity.
Defined.

Lemma X6_witness :
  let s1 := snd (handle_collect iso_example adapt_example env_up (JObj fs_ok) st_empty) in
  let s2 := snd (handle_collect iso_example adapt_example env_splunk_down (JObj fs_ok) s1) in
  db_rows (st_db s2) = db_rows (st_db s1) /\
  st_counter s2 !! key_of "ERROR" fs_ok =
    Some (S (S (default 0 (st_counter st_empty !! key_of "ERROR" fs_ok)))).
Proof.
  apply (X6_replay_no_new_row iso_example adapt_example env_up env_splunk_down fs_ok st_empty
           params_ok); try (vm_compute; reflexivity).
  discriminate.
Defined.

Lemma X7_witness :
  levels_ok (st_db (snd (run_requests iso_example adapt_example
    [(env_up, JObj fs_ok); (env_db_down, JObj fs_ok); (env_up, JArr []);
     (env_up, JObj fs_anon1)] st_restarted))) = true.
Proof.
  apply X7_rows_have_allowed_levels; [intros x; reflexivity|reflexivity].
Defined.

Lemma X8_witness :
  (fst (handle_analyze env_up st_foreign) = Ok (500%Z, None) <->
   (exists r, In r (db_rows (st_db st_foreign)) /\ r_level r = None) /\
   (exists r, In r (db_rows (st_db st_foreign)) /\ r_level r <> None)) /\
  (fst (handle_analyze env_up st_foreign) <> Ok (500%Z, None) ->
   fst (handle_analyze env_up st_foreign) =
     Ok (200%Z, Some (level_counts (db_rows (st_db st_foreign))))).
Proof. apply X8_analyze_null_level_500. reflexivity. Defined.

Lemma X9_witness :
  exists l, Some "ERROR" = Some l /\ In l ALLOWED_LEVELS.
Proof.
  apply (X9_analyze_keys_allowed iso_example adapt_example (fun x => eq_refl)
           [(env_up, JObj fs_ok); (env_db_down, JObj fs_ok); (env_up, JArr [])] env_up
           (<[Some "ERROR" := 1%nat]> (∅ : gmap sqlval nat)) (Some "ERROR") 1%nat);
    [reflexivity|vm_compute; reflexivity|vm_compute; reflexivity].
Defined.

Lemma X10_witness :
  let s := snd (run_requests iso_example adapt_example
                  [(env_up, JObj fs_ok); (env_up, JObj fs_anon1)] st_restarted) in
  exists out rest vs,
    get_logs order_example env_up (Some "2") s = (Ok vs, s) /\
    views out = Ok vs /\
    Permutation (out ++ rest) (db_rows (st_db s)) /\
    length vs = Nat.min (Z.to_nat 2) (length (db_rows (st_db s))) /\
    Sorted ts_ge out /\
    (forall a b, In a out -> In b rest ->
       exists ta tb, r_timestamp a = Some ta /\ r_timestamp b = Some tb /\ (tb <= ta)%Z).
Proof.
  intros s. apply X10_get_logs_newest_first.
  - exact order_example_spec.
  - vm_compute. reflexivity.
  - vm_compute. split; discriminate.
  - reflexivity.
  - intros r Hr. vm_compute in Hr.
    repeat (destruct Hr as [<-|Hr]; [discriminate|]). destruct Hr.
Defined.

Lemma X11_witness :
  handle_get_logs order_example env_up (Some " -3 ") st_restarted =
    (Ok (500%Z, None), mkSt (st_db st_restarted) (st_counter st_restarted)
                         (st_trace st_restarted ++ [flask_exception_log "/logs" "GET"])%list) /\
  handle_get_logs order_example env_up (Some "ten") st_restarted =
    (Ok (500%Z, None), mkSt (st_db st_restarted) (st_counter st_restarted)
                         (st_trace st_restarted ++ [flask_exception_log "/logs" "GET"])%list) /\
  handle_get_logs order_example env_up (Some "99999999999999999999") st_restarted =
    (Ok (500%Z, None), mkSt (st_db st_restarted) (st_counter st_restarted)
                         (st_trace st_restarted ++ [flask_exception_log "/logs" "GET"])%list).
Proof.
  split; [|split]; apply X11_bad_limit_500.
  - right. exists (-3)%Z. split; [vm_compute; reflexivity|lia].
  - left. vm_compute. reflexivity.
  - right. exists 99999999999999999999%Z. split; [vm_compute; reflexivity|].
    right. vm_compute. reflexivity.
Defined.

Lemma X12_witness :
  List.filter is_init_attempt (fst (main conn_late None)) = map InitAttempt (seq 0 4) /\
  length (List.filter is_sleep (fst (main conn_late None))) = 3%nat /\
  snd (main conn_late None) = Some (mkDb [] 0) /\
  exists evs, fst (main conn_late None) = (evs ++ [AppRun])%list /\ ~ In AppRun evs.
Proof.
  apply (X12_startup_retries conn_late None 3); [lia| |reflexivity].
  intros j Hj. unfold conn_late. destruct (Nat.ltb_spec j 3); [discriminate|lia].
Defined.

Lemma X13_witness :
  List.filter is_init_attempt (fst (main conn_never None)) = map InitAttempt (seq 0 10) /\
  length (List.filter is_sleep (fst (main conn_never None))) = 10%nat /\
  snd (main conn_never None) = None /\
  exists evs, fst (main conn_never None) = (evs ++ [AppRun])%list /\ ~ In AppRun evs.
Proof.
  apply X13_startup_gives_up. intros j _. discriminate.
Defined.

Lemma X14_witness :
  let fs := [("level", JStr "warning"); ("message", JStr "slow")] in
  let s' := snd (handle_collect iso_example adapt_example env_up (JObj fs) st_empty) in
  In (PersistorPost "http://persistor-application:6000/store" (JObj fs)) (st_trace s') /\
  st_counter s' !! ("WARNING", py_str (client_of fs), "application") =
    Some (S (default 0 (st_counter st_empty !! ("WARNING", py_str (client_of fs), "application")))).
Proof.
  intros fs. apply X14_missing_type_application; vm_compute; reflexivity.
Defined.

Lemma X15_witness :
  let fs := [("level", JStr "debug"); ("type", JStr "billing")] in
  exists new,
    handle_collect iso_example adapt_example env_up (JObj fs) st_empty =
      (Ok (200%Z, BStatusOk),
       mkSt (st_db (snd (handle_collect iso_example adapt_example env_up (JObj fs) st_empty)))
            (st_counter (snd (handle_collect iso_example adapt_example env_up (JObj fs) st_empty)))
            (st_trace st_empty ++ new)) /\
    (exists p, In (DbCommit p) new) /\
    (exists pl, In (SplunkPost SPLUNK_HEC pl) new) /\
    forall f, In f new -> is_persistor_post f = false.
Proof.
  intros fs. apply X15_unknown_type_no_persistor; vm_compute; reflexivity.
Defined.

Lemma X16_witness :
  let s' := snd (run_requests iso_example adapt_example
               [(env_up, JObj fs_ok); (env_up, JObj fs_anon1); (env_up, JArr [])] st_restarted) in
  handle_analyze env_up s' = (Ok (200%Z, Some (level_counts (db_rows (st_db s')))), s').
Proof.
  apply (X16_analyze_200_after_collect iso_example adapt_example (fun x => eq_refl));
    reflexivity.
Defined.

Lemma X17_witness :
  let s' := snd (run_requests iso_example adapt_example
               [(env_up, JObj fs_ok); (env_up, JObj fs_anon1)] st_empty) in
  exists vs, handle_get_logs order_example env_up None s' = (Ok (200%Z, Some vs), s') /\
    length vs = Nat.min (Z.to_nat 500) (length (db_rows (st_db s'))).
Proof.
  apply X17_logs_200_after_collect.
  - intros rows. apply order_example_spec.
  - reflexivity.
  - vm_compute. reflexivity.
  - vm_compute. split; discriminate.
  - reflexivity.
Defined.
